(** * The routing gateway of the rack: a shallow embedding of
    [pkg/router/router.go].

    The router's methods talk to collaborators that live outside
    [router.go]: the Routing Store behind [r.storage], the idle lifecycle
    ([HostUnidle], [HostIdleStatus]), the certificate helpers, the ACME
    manager, the process-wide random source and standard output.  Every
    such call is an explicit [Call]; a method is a finite program [Prog]
    over these calls, and [run] executes a program against a handler that
    answers the calls over an explicit world, recording the calls made.

    Go values: [int] is [Z], [string] is [string], an [error] is
    [option string] ([None] is [nil], [Some msg] an error whose text is
    [msg]), a slice is a [list], a run-time panic is the [Panic] program. *)

From Stdlib Require Import ZArith Ascii String.
From stdpp Require Import gmap strings list.

Definition error : Type := option string.

(** [len(xs)] as a Go [int]. *)
Definition len {A : Type} (xs : list A) : Z := Z.of_nat (List.length xs).

(** [tls.ClientHelloInfo]: the only field the router reads. *)
Record ClientHelloInfo : Type := { ServerName : string }.

(** How a call of a Go function ends. *)
Inductive Outcome (R : Type) : Type :=
| Returned (r : R)
| Panicked (msg : string).

Arguments Returned {R} r.
Arguments Panicked {R} msg.

(** The three parts of a run: how it ended, the world it left, and the
    calls it made, in order. *)
Definition outcome {R W C : Type} (res : Outcome R * W * list C) : Outcome R :=
  res.1.1.

Definition final {R W C : Type} (res : Outcome R * W * list C) : W :=
  res.1.2.

Definition calls {R W C : Type} (res : Outcome R * W * list C) : list C :=
  res.2.

Section Effects.
(** [tls.Certificate], the CA key pair returned by [r.ca()], and
    [autocert.Manager] are opaque to the router. *)
Variables Certificate CA Manager : Type.

(** The calls [router.go] makes to code outside the file. *)
Inductive Call : Type :=
| StorageIdleGet (host : string)
| StorageIdleSet (host : string) (idle : bool)
| StorageRequestBegin (host : string)
| StorageRequestEnd (host : string)
| StorageTargetAdd (host target : string)
| StorageTargetList (host : string)
| StorageTargetRemove (host target : string)
| RouterHostUnidle (host : string)
| RouterHostIdleStatus (host : string)
| RouterCa
| HelpersCertificateCA (host : string) (ca : CA)
| HelpersCertificateSelfSigned (name : string)
| AutocertGetCertificate (m : Manager) (hello : ClientHelloInfo)
| RandIntn (n : Z)
| FmtPrintf (format : string) (args : list string).

(** What each call returns.  A Go pointer result is an [option]
    ([None] is the nil pointer). *)
Definition Resp (c : Call) : Type :=
  match c with
  | StorageIdleGet _ => (bool * error)%type
  | StorageIdleSet _ _ => error
  | StorageRequestBegin _ => error
  | StorageRequestEnd _ => error
  | StorageTargetAdd _ _ => error
  | StorageTargetList _ => (list string * error)%type
  | StorageTargetRemove _ _ => error
  | RouterHostUnidle _ => error
  | RouterHostIdleStatus _ => (bool * error)%type
  | RouterCa => (CA * error)%type
  | HelpersCertificateCA _ _ => (option Certificate * error)%type
  | HelpersCertificateSelfSigned _ => (option Certificate * error)%type
  | AutocertGetCertificate _ _ => (option Certificate * error)%type
  | RandIntn _ => Z
  | FmtPrintf _ _ => unit
  end.

(** Finite programs over the calls. *)
Inductive Prog (R : Type) : Type :=
| Ret (r : R)
| Panic (msg : string)
| Do (c : Call) (k : Resp c -> Prog R).

Arguments Ret {R} r.
Arguments Panic {R} msg.
Arguments Do {R} c k.

Fixpoint bind {A B : Type} (p : Prog A) (f : A -> Prog B) : Prog B :=
  match p with
  | Ret a => f a
  | Panic msg => Panic msg
  | Do c k => Do c (fun x => bind (k x) f)
  end.

Definition call (c : Call) : Prog (Resp c) := Do c Ret.

Section Run.
Variable World : Type.

(** A handler answers every call and may change the world. *)
Definition Handler : Type := forall c : Call, World -> Resp c * World.

(** Running a program: the outcome, the final world and the calls
    made, in order. *)
Fixpoint run {R : Type} (h : Handler) (p : Prog R) (w : World)
  : Outcome R * World * list Call :=
  match p with
  | Ret r => (Returned r, w, [])
  | Panic msg => (Panicked msg, w, [])
  | Do c k =>
      let '(x, w1) := h c w in
      let '(o, w2, cs) := run h (k x) w1 in
      (o, w2, c :: cs)
  end.

(** The handler [h] except that [rand.Intn] answers [k]. *)
Definition with_draw (h : Handler) (k : Z) : Handler :=
  fun c =>
    match c as c0 return (World -> Resp c0 * World) -> World -> Resp c0 * World with
    | RandIntn n => fun d w => (k, (d w).2)
    | _ => fun d => d
    end (h c).
End Run.
End Effects.

Arguments StorageIdleGet {CA Manager} host.
Arguments StorageIdleSet {CA Manager} host idle.
Arguments StorageRequestBegin {CA Manager} host.
Arguments StorageRequestEnd {CA Manager} host.
Arguments StorageTargetAdd {CA Manager} host target.
Arguments StorageTargetList {CA Manager} host.
Arguments StorageTargetRemove {CA Manager} host target.
Arguments RouterHostUnidle {CA Manager} host.
Arguments RouterHostIdleStatus {CA Manager} host.
Arguments RouterCa {CA Manager}.
Arguments HelpersCertificateCA {CA Manager} host ca.
Arguments HelpersCertificateSelfSigned {CA Manager} name.
Arguments AutocertGetCertificate {CA Manager} m hello.
Arguments RandIntn {CA Manager} n.
Arguments FmtPrintf {CA Manager} format args.
Arguments Ret {Certificate CA Manager R} r.
Arguments Panic {Certificate CA Manager R} msg.
Arguments Do {Certificate CA Manager R} c k.
Arguments bind {Certificate CA Manager A B} p f.
Arguments call {Certificate CA Manager} c.
Arguments run {Certificate CA Manager World R} h p w.
Arguments with_draw {Certificate CA Manager World} h k c.

#[export] Instance Prog_ret {Certificate CA Manager : Type}
  : MRet (Prog Certificate CA Manager) := fun _ r => Ret r.
#[export] Instance Prog_bind {Certificate CA Manager : Type}
  : MBind (Prog Certificate CA Manager) := fun _ _ f p => bind p f.

(** ** The Go standard library calls the routing methods use *)
Section GoLib.
Context {Certificate CA Manager : Type}.
Abbreviation Prog := (Prog Certificate CA Manager).

(** [rand.Intn(n)]: panics unless [n > 0], otherwise draws from the
    process-wide source. *)
Definition rand_Intn (n : Z) : Prog Z :=
  if (n <=? 0)%Z then Panic "invalid argument to Intn" else call (RandIntn n).

(** [xs[i]]: panics out of range. *)
Definition index (xs : list string) (i : Z) : Prog string :=
  match (if (0 <=? i)%Z then xs !! Z.to_nat i else None) with
  | Some x => Ret x
  | None => Panic "index out of range"
  end.
End GoLib.

(** ** The router and its methods ([router.go]) *)
Section RouterMethods.
Context {Certificate CA Manager : Type}.
Abbreviation Prog := (Prog Certificate CA Manager).

(** A value held by [r.certs], a [sync.Map] of [interface{}] values.
    [generateCertificateCA] only ever stores [tls.Certificate] values;
    [AnyOther] is a value of any other dynamic type, on which the type
    assertion [v.(tls.Certificate)] fails. *)
Inductive Any : Type :=
| AnyCertificate (c : Certificate)
| AnyOther.

(** [type Router struct]: the fields that are plain data.  [Cluster],
    the three servers and [storage] are reached through calls. *)
Record Router : Type := {
  certs : gmap string Any;
  ip : string;
  prefix : string;
  service : string
}.

(** [r.certs.Store(host, c)]. *)
Definition certs_Store (r : Router) (host : string) (c : Certificate) : Router :=
  {| certs := <[host := AnyCertificate c]> (certs r);
     ip := ip r; prefix := prefix r; service := service r |}.

(** [func (r *Router) ExternalIP(remote net.Addr) string], on
    [remote.String()]. *)
Definition ExternalIP (r : Router) (remote : string) : string :=
  if String.prefix (prefix r) remote then service r else ip r.

(** [func (r *Router) RequestBegin(host string) error]. *)
Definition RequestBegin (host : string) : Prog error :=
  '(idle, err) ← call (StorageIdleGet host);
  match err with
  | Some e => Ret (Some ("could not fetch idle status: " +:+ e))
  | None =>
      if (idle : bool) then
        err ← call (RouterHostUnidle host);
        match err with
        | Some e => Ret (Some ("could not unidle: " +:+ e))
        | None => call (StorageRequestBegin host)
        end
      else call (StorageRequestBegin host)
  end.

(** [func (r *Router) RequestEnd(host string) error]. *)
Definition RequestEnd (host : string) : Prog error :=
  call (StorageRequestEnd host).

(** [func (r *Router) TargetList(host string) ([]string, error)]. *)
Definition TargetList (host : string) : Prog (list string * error) :=
  call (StorageTargetList host).

(** [func (r *Router) Route(host string) (string, error)]. *)
Definition Route (host : string) : Prog (string * error) :=
  '(ts, err) ← TargetList host;
  match err with
  | Some _ => Ret ("", Some "no backends available")
  | None =>
      if (len ts <? 1)%Z then Ret ("", Some "no backends available")
      else
        k ← rand_Intn (len ts);
        t ← index ts k;
        Ret (t, None)
  end.

(** [func (r *Router) TargetAdd(host, target string) error].  The
    format of the log line is kept as the source writes it. *)
Definition TargetAdd (host target : string) : Prog error :=
  _ ← call (FmtPrintf "ns=router at=target.add host=%q target=%q\n" [host; target]);
  err ← call (StorageTargetAdd host target);
  match err with
  | Some e => Ret (Some e)
  | None =>
      '(idle, err) ← call (RouterHostIdleStatus host);
      match err with
      | Some e => Ret (Some e)
      | None =>
          err ← call (StorageIdleSet host idle);
          match err with
          | Some e => Ret (Some e)
          | None => Ret None
          end
      end
  end.

(** [func (r *Router) TargetRemove(host, target string) error]. *)
Definition TargetRemove (host target : string) : Prog error :=
  _ ← call (FmtPrintf "ns=router at=target.delete host=%q target=%q\n" [host; target]);
  call (StorageTargetRemove host target).

(** [func (r *Router) generateCertificateAutocert(m *autocert.Manager)]:
    the [GetCertificate] callback of automated-issuance mode. *)
Definition generateCertificateAutocert (m : Manager) (hello : ClientHelloInfo)
  : Prog (option Certificate * error) :=
  if decide (ServerName hello = "") then call (HelpersCertificateSelfSigned "convox")
  else call (AutocertGetCertificate m hello).

(** [func (r *Router) generateCertificateCA(hello *tls.ClientHelloInfo)]:
    the [GetCertificate] callback of CA mode.  The router is returned
    with the result because the method writes [r.certs].  [*c] on a nil
    [c] is Go's nil-pointer panic. *)
Definition generateCertificateCA (r : Router) (hello : ClientHelloInfo)
  : Prog (option Certificate * error * Router) :=
  let host := ServerName hello in
  match certs r !! host with
  | Some (AnyCertificate c) => Ret (Some c, None, r)
  | _ =>
      '(ca, err) ← call RouterCa;
      match err with
      | Some e => Ret (None, Some e, r)
      | None =>
          '(c, err) ← call (HelpersCertificateCA host ca);
          match err with
          | Some e => Ret (None, Some e, r)
          | None =>
              match c with
              | None => Panic "invalid memory address or nil pointer dereference"
              | Some cert => Ret (Some cert, None, certs_Store r host cert)
              end
          end
      end
  end.

End RouterMethods.

Arguments Any Certificate : clear implicits.
Arguments Router Certificate : clear implicits.

(** ** Go's [strings] package, on byte strings *)
Module strings.
(** [s[i:]] and [s[:i]]. *)
Fixpoint from (s : string) (i : nat) : string :=
  match i, s with
  | O, _ => s
  | S i', String _ s' => from s' i'
  | S _, EmptyString => EmptyString
  end.

Fixpoint upto (s : string) (i : nat) : string :=
  match i, s with
  | O, _ => EmptyString
  | S i', String c s' => String c (upto s' i')
  | S _, EmptyString => EmptyString
  end.

(** [strings.Index(s, sub)]; [None] is Go's [-1]. *)
Fixpoint Index (s sub : string) : option nat :=
  if String.prefix sub s then Some O
  else match s with
       | EmptyString => None
       | String _ s' => S <$> Index s' sub
       end.

(** [strings.LastIndex(s, sub)]. *)
Fixpoint LastIndex (s sub : string) : option nat :=
  match s with
  | EmptyString => if String.prefix sub s then Some O else None
  | String _ s' =>
      match LastIndex s' sub with
      | Some i => Some (S i)
      | None => if String.prefix sub s then Some O else None
      end
  end.

Definition HasPrefix (s pre : string) : bool := String.prefix pre s.

Fixpoint HasSuffix (s suf : string) : bool :=
  String.eqb s suf ||
  match s with
  | EmptyString => false
  | String _ s' => HasSuffix s' suf
  end.

(** [strings.Count(s, c)] for a one-byte [c]. *)
Fixpoint Count (s : string) (c : ascii) : nat :=
  match s with
  | EmptyString => O
  | String x s' => (if Ascii.eqb x c then 1 else 0) + Count s' c
  end.

Definition lower (c : ascii) : ascii :=
  let n := nat_of_ascii c in
  if (65 <=? n)%nat && (n <=? 90)%nat then ascii_of_nat (n + 32) else c.

(** [strings.ToLower] on ASCII text. *)
Fixpoint ToLower (s : string) : string :=
  match s with
  | EmptyString => EmptyString
  | String c s' => String (lower c) (ToLower s')
  end.

Fixpoint all (p : ascii -> bool) (s : string) : bool :=
  match s with
  | EmptyString => true
  | String c s' => p c && all p s'
  end.

(** Whether byte [c] occurs in [set]. *)
Fixpoint contains (set : string) (c : ascii) : bool :=
  match set with
  | EmptyString => false
  | String x set' => Ascii.eqb x c || contains set' c
  end.
End strings.

(** ** Go's [net/url]: the parts [parseTarget] and [redirectHTTPS] use,
    after the standard library's source *)
Module url.
Import strings.

Definition byte (c : ascii) : nat := nat_of_ascii c.

Definition isalpha (c : ascii) : bool :=
  ((65 <=? byte c) && (byte c <=? 90) || (97 <=? byte c) && (byte c <=? 122))%nat.

Definition isdigit (c : ascii) : bool :=
  ((48 <=? byte c) && (byte c <=? 57))%nat.

(** The double quote, byte 34. *)
Definition dquote : ascii := ascii_of_nat 34.

Inductive encoding : Type :=
| encodePath
| encodePathSegment
| encodeHost
| encodeZone
| encodeUserPassword
| encodeQueryComponent
| encodeFragment.

Definition is_host_mode (mode : encoding) : bool :=
  match mode with
  | encodeHost | encodeZone => true
  | _ => false
  end.

(** [shouldEscape(c, mode)]. *)
Definition shouldEscape (c : ascii) (mode : encoding) : bool :=
  if isalpha c || isdigit c then false
  else if is_host_mode mode && (contains "!$&'()*+,;=:[]<>" c || Ascii.eqb c dquote) then false
  else if contains "-_.~" c then false
  else if contains "$&+,/:;=?@" c then
    match mode with
    | encodePath => Ascii.eqb c "?"
    | encodePathSegment => contains "/;,?" c
    | encodeUserPassword => contains "@/?:" c
    | encodeQueryComponent => true
    | encodeFragment => false
    | encodeHost | encodeZone => true
    end
  else if match mode with encodeFragment => contains "!()*" c | _ => false end then false
  else true.

Definition hexdigit (upper : bool) (n : nat) : ascii :=
  if (n <? 10)%nat then ascii_of_nat (48 + n)
  else ascii_of_nat ((if upper then 55 else 87) + n).

(** [%XX] for byte [c]. *)
Definition percent (upper : bool) (c : ascii) : string :=
  String "%" (String (hexdigit upper (byte c / 16)) (String (hexdigit upper (byte c mod 16)) EmptyString)).

(** [escape(s, mode)]. *)
Fixpoint escape (s : string) (mode : encoding) : string :=
  match s with
  | EmptyString => EmptyString
  | String c s' =>
      if shouldEscape c mode then
        match mode with
        | encodeQueryComponent =>
            if Ascii.eqb c " " then String "+" (escape s' mode)
            else percent true c +:+ escape s' mode
        | _ => percent true c +:+ escape s' mode
        end
      else String c (escape s' mode)
  end.

(** [type URL struct]; [User] keeps the decoded user name and password. *)
Record URL : Type := {
  Scheme : string;
  Opaque : string;
  User : option (string * option string);
  Host : string;
  Path : string;
  RawPath : string;
  ForceQuery : bool;
  RawQuery : string;
  Fragment : string
}.

Definition ishex (c : ascii) : bool :=
  isdigit c || ((97 <=? byte c) && (byte c <=? 102) || (65 <=? byte c) && (byte c <=? 70))%nat.

Definition unhex (c : ascii) : nat :=
  if isdigit c then byte c - 48
  else if ((97 <=? byte c) && (byte c <=? 102))%nat then byte c - 97 + 10
  else if ((65 <=? byte c) && (byte c <=? 70))%nat then byte c - 65 + 10
  else 0.

(** One more decoded byte in front of the rest, unless the rest failed. *)
Definition decoded (c : ascii) (rest : string * error) : string * error :=
  match rest with
  | (t, None) => (String c t, None)
  | (_, Some e) => (EmptyString, Some e)
  end.

(** [unescape(s, mode)]: the decoded text, or the error of the first
    malformed escape or forbidden host byte. *)
Fixpoint unescape (s : string) (mode : encoding) : string * error :=
  match s with
  | EmptyString => (EmptyString, None)
  | String c s' =>
      if Ascii.eqb c "%" then
        match s' with
        | String a (String b s'') =>
            if negb (ishex a && ishex b) then (EmptyString, Some "invalid URL escape")
            else if match mode with encodeHost => true | _ => false end
                    && (unhex a <? 8)%nat && negb (String.eqb (upto s 3) "%25")
            then (EmptyString, Some "invalid URL escape")
            else if match mode with encodeZone => true | _ => false end
                    && negb (String.eqb (upto s 3) "%25")
                    && negb (Ascii.eqb (ascii_of_nat (unhex a * 16 + unhex b)) " ")
                    && shouldEscape (ascii_of_nat (unhex a * 16 + unhex b)) encodeHost
            then (EmptyString, Some "invalid URL escape")
            else decoded (ascii_of_nat (unhex a * 16 + unhex b)) (unescape s'' mode)
        | _ => (EmptyString, Some "invalid URL escape")
        end
      else if Ascii.eqb c "+" then
        decoded (match mode with encodeQueryComponent => " "%char | _ => c end)
                (unescape s' mode)
      else if is_host_mode mode && (byte c <? 128)%nat && shouldEscape c encodeHost
      then (EmptyString, Some "invalid character in host name")
      else decoded c (unescape s' mode)
  end.

(** [validEncodedPath(s)]. *)
Definition validEncodedPath (s : string) : bool :=
  all (fun c => contains "!$&'()*+,;=:@[]%" c || negb (shouldEscape c encodePath)) s.

(** [(u *URL) EscapedPath()]. *)
Definition EscapedPath (u : URL) : string :=
  if negb (String.eqb (RawPath u) "") && validEncodedPath (RawPath u)
     && match unescape (RawPath u) encodePath with
        | (p, None) => String.eqb p (Path u)
        | (_, Some _) => false
        end
  then RawPath u
  else if String.eqb (Path u) "*" then "*"
  else escape (Path u) encodePath.

(** [(u *Userinfo) String()]. *)
Definition Userinfo_String (ui : string * option string) : string :=
  match ui with
  | (username, None) => escape username encodeUserPassword
  | (username, Some password) =>
      escape username encodeUserPassword +:+ ":" +:+ escape password encodeUserPassword
  end.

(** [(u *URL) String()]. *)
Definition String_ (u : URL) : string :=
  (if String.eqb (Scheme u) "" then "" else Scheme u +:+ ":") +:+
  (if negb (String.eqb (Opaque u) "") then Opaque u
   else
     (if negb (String.eqb (Scheme u) "") || negb (String.eqb (Host u) "") || bool_decide (is_Some (User u))
      then
        (if negb (String.eqb (Host u) "") || negb (String.eqb (Path u) "") || bool_decide (is_Some (User u))
         then "//" else "") +:+
        (match User u with Some ui => Userinfo_String ui +:+ "@" | None => "" end) +:+
        (if String.eqb (Host u) "" then "" else escape (Host u) encodeHost)
      else "") +:+
     (match EscapedPath u with
      | String c _ as path =>
          (if negb (Ascii.eqb c "/") && negb (String.eqb (Host u) "") then "/" else "") +:+
          (if String.eqb (Scheme u) "" && String.eqb (Host u) "" && negb (bool_decide (is_Some (User u)))
           then match Index path ":" with
                | Some i => match Index (upto path i) "/" with None => "./" | Some _ => "" end
                | None => ""
                end
           else "") +:+
          path
      | EmptyString => ""
      end)) +:+
  (if ForceQuery u || negb (String.eqb (RawQuery u) "") then "?" +:+ RawQuery u else "") +:+
  (if String.eqb (Fragment u) "" then "" else "#" +:+ escape (Fragment u) encodeFragment).

(** [stripPort(hostport)] and [(u *URL) Hostname()]. *)
Definition stripPort (hostport : string) : string :=
  match Index hostport ":" with
  | None => hostport
  | Some colon =>
      match Index hostport "]" with
      | Some i =>
          let h := upto hostport i in
          if HasPrefix h "[" then from h 1 else h
      | None => upto hostport colon
      end
  end.

Definition Hostname (u : URL) : string := stripPort (Host u).

(** [split(s, c, cutc)] for a one-byte separator. *)
Definition split (s : string) (c : string) (cutc : bool) : string * string :=
  match Index s c with
  | None => (s, "")
  | Some i => (upto s i, from s (if cutc then i + 1 else i))
  end.

(** [getscheme(rawurl)], scanning from byte [i] on, where [rest] is
    [rawurl[i:]]. *)
Fixpoint getscheme_from (rawurl : string) (i : nat) (rest : string) : string * string * error :=
  match rest with
  | EmptyString => ("", rawurl, None)
  | String c rest' =>
      if isalpha c then getscheme_from rawurl (S i) rest'
      else if isdigit c || contains "+-." c then
        match i with
        | O => ("", rawurl, None)
        | S _ => getscheme_from rawurl (S i) rest'
        end
      else if Ascii.eqb c ":" then
        match i with
        | O => ("", "", Some "missing protocol scheme")
        | S _ => (upto rawurl i, rest', None)
        end
      else ("", rawurl, None)
  end.

Definition getscheme (rawurl : string) : string * string * error :=
  getscheme_from rawurl 0 rawurl.

(** [stringContainsCTLByte(s)]. *)
Definition stringContainsCTLByte (s : string) : bool :=
  negb (all (fun c => negb ((byte c <? 32)%nat || (byte c =? 127)%nat)) s).

(** [validOptionalPort(port)]. *)
Definition validOptionalPort (port : string) : bool :=
  match port with
  | EmptyString => true
  | String c digits => Ascii.eqb c ":" && all isdigit digits
  end.

(** [validUserinfo(s)]. *)
Definition validUserinfo (s : string) : bool :=
  all (fun c => isalpha c || isdigit c || contains "-._:~!$&'()*+,;=%@" c) s.

(** [parseHost(host)]. *)
Definition parseHost (host : string) : string * error :=
  let plain :=
    match unescape host encodeHost with
    | (h, None) => (h, None)
    | (_, Some e) => ("", Some e)
    end in
  if HasPrefix host "[" then
    match LastIndex host "]" with
    | None => ("", Some "missing ']' in host")
    | Some i =>
        if negb (validOptionalPort (from host (i + 1))) then ("", Some "invalid port after host")
        else
          match Index (upto host i) "%25" with
          | Some zone =>
              match unescape (upto host zone) encodeHost,
                    unescape (from (upto host i) zone) encodeZone,
                    unescape (from host i) encodeHost with
              | (host1, None), (host2, None), (host3, None) => (host1 +:+ host2 +:+ host3, None)
              | (_, Some e), _, _ => ("", Some e)
              | _, (_, Some e), _ => ("", Some e)
              | _, _, (_, Some e) => ("", Some e)
              end
          | None => plain
          end
    end
  else
    match LastIndex host ":" with
    | Some i =>
        if negb (validOptionalPort (from host i)) then ("", Some "invalid port after host")
        else plain
    | None => plain
    end.

(** [parseAuthority(authority)]. *)
Definition parseAuthority (authority : string)
  : option (string * option string) * string * error :=
  match LastIndex authority "@" with
  | None =>
      match parseHost authority with
      | (host, None) => (None, host, None)
      | (_, Some e) => (None, "", Some e)
      end
  | Some i =>
      match parseHost (from authority (i + 1)) with
      | (_, Some e) => (None, "", Some e)
      | (host, None) =>
          let userinfo := upto authority i in
          if negb (validUserinfo userinfo) then (None, "", Some "net/url: invalid userinfo")
          else
            match Index userinfo ":" with
            | None =>
                match unescape userinfo encodeUserPassword with
                | (name, None) => (Some (name, None), host, None)
                | (_, Some e) => (None, "", Some e)
                end
            | Some _ =>
                let '(username, password) := split userinfo ":" true in
                match unescape username encodeUserPassword,
                      unescape password encodeUserPassword with
                | (name, None), (pass, None) => (Some (name, Some pass), host, None)
                | (_, Some e), _ => (None, "", Some e)
                | _, (_, Some e) => (None, "", Some e)
                end
            end
      end
  end.

(** The part of [parse(rawurl, false)] after the scheme is known:
    query, opaque form, authority and path.  A parse gives a URL
    ([inl]) or an error ([inr]). *)
Definition parse_rest (scheme rest0 : string) : URL + string :=
  let '(rest, forceQuery, rawQuery) :=
    if HasSuffix rest0 "?" && (Count rest0 "?" =? 1)%nat
    then (upto rest0 (String.length rest0 - 1), true, "")
    else let '(a, b) := split rest0 "?" true in (a, false, b) in
  let mk opaque user host path rawPath :=
    {| Scheme := scheme; Opaque := opaque; User := user; Host := host;
       Path := path; RawPath := rawPath; ForceQuery := forceQuery;
       RawQuery := rawQuery; Fragment := "" |} in
  let setPath user host rest :=
    match unescape rest encodePath with
    | (_, Some e) => inr e
    | (path, None) =>
        inl (mk "" user host path
                (if String.eqb rest (escape path encodePath) then "" else rest))
    end in
  let authority_and_path rest :=
    if (negb (String.eqb scheme "") || negb (HasPrefix rest "///")) && HasPrefix rest "//" then
      let '(authority, rest') := split (from rest 2) "/" false in
      match parseAuthority authority with
      | (_, _, Some e) => inr e
      | (user, host, None) => setPath user host rest'
      end
    else setPath None "" rest in
  if negb (HasPrefix rest "/") then
    if negb (String.eqb scheme "") then inl (mk rest None "" "" "")
    else
      match Index rest ":" with
      | Some colon =>
          match Index rest "/" with
          | None => inr "first path segment in URL cannot contain colon"
          | Some slash =>
              if (colon <? slash)%nat
              then inr "first path segment in URL cannot contain colon"
              else authority_and_path rest
          end
      | None => authority_and_path rest
      end
  else authority_and_path rest.

(** [parse(rawurl, false)]. *)
Definition parse (rawurl : string) : URL + string :=
  if stringContainsCTLByte rawurl then inr "net/url: invalid control character in URL"
  else if String.eqb rawurl "*" then
    inl {| Scheme := ""; Opaque := ""; User := None; Host := ""; Path := "*";
           RawPath := ""; ForceQuery := false; RawQuery := ""; Fragment := "" |}
  else
    match getscheme rawurl with
    | (_, _, Some e) => inr e
    | (scheme, rest, None) => parse_rest (ToLower scheme) rest
    end.

(** [url.Parse(rawurl)]. *)
Definition Parse (rawurl : string) : URL + string :=
  let '(u, frag) := split rawurl "#" true in
  match parse u with
  | inr e => inr ("parse: " +:+ e)
  | inl url =>
      if String.eqb frag "" then inl url
      else
        match unescape frag encodeFragment with
        | (fragment, None) =>
            inl {| Scheme := Scheme url; Opaque := Opaque url; User := User url;
                   Host := Host url; Path := Path url; RawPath := RawPath url;
                   ForceQuery := ForceQuery url; RawQuery := RawQuery url;
                   Fragment := fragment |}
        | (_, Some e) => inr ("parse: " +:+ e)
        end
  end.
End url.

(** ** Go's [net/http]: requests, response writers and [Redirect] *)
Module http.
(** [http.Header]: canonical key to values. *)
Definition Header_Get (h : gmap string (list string)) (key : string) : string :=
  match h !! key with
  | Some (v :: _) => v
  | _ => ""
  end.

Definition Header_Set (h : gmap string (list string)) (key value : string)
  : gmap string (list string) :=
  <[key := [value]]> h.

(** [http.Request]: the fields the redirect handler reads. *)
Record Request : Type := {
  Method : string;
  Host : string;
  URL : url.URL;
  Header : gmap string (list string)
}.

(** What has been written to an [http.ResponseWriter]: its header map,
    the status passed to [WriteHeader] if any, and the body. *)
Record ResponseWriter : Type := {
  header : gmap string (list string);
  status : option Z;
  body : string
}.

Definition HandlerFunc : Type := ResponseWriter -> Request -> ResponseWriter.

Definition StatusMovedPermanently : Z := 301.

(** [hexEscapeNonASCII(s)]: bytes from 0x80 on become [%xx]. *)
Fixpoint hexEscapeNonASCII (s : string) : string :=
  match s with
  | EmptyString => EmptyString
  | String c s' =>
      if (128 <=? url.byte c)%nat then url.percent false c +:+ hexEscapeNonASCII s'
      else String c (hexEscapeNonASCII s')
  end.

Section Redirect.
(** Two pieces of [http.Redirect] that do not depend on the router:
    how a url without scheme and host is resolved against the path of
    the request, and the HTML note written as the body. *)
Variable resolve : string -> string -> string.
Variable note : string -> Z -> string.

(** [http.Redirect(w, r, url, code)]. *)
Definition Redirect (w : ResponseWriter) (r : Request) (target : string) (code : Z)
  : ResponseWriter :=
  let target :=
    match url.Parse target with
    | inl u =>
        if String.eqb (url.Scheme u) "" && String.eqb (url.Host u) ""
        then resolve (url.Path (URL r)) target
        else target
    | inr _ => target
    end in
  let hadCT := bool_decide (is_Some (header w !! "Content-Type")) in
  let h := Header_Set (header w) "Location" (hexEscapeNonASCII target) in
  let h :=
    if negb hadCT && (String.eqb (Method r) "GET" || String.eqb (Method r) "HEAD")
    then Header_Set h "Content-Type" "text/html; charset=utf-8" else h in
  {| header := h;
     status := Some code;
     body := if negb hadCT && String.eqb (Method r) "GET"
             then body w +:+ note target code else body w |}.
End Redirect.
End http.

(** ** The pure helpers of [router.go] *)

(** Reading up to the first dot: the text before it, and the text after
    it when there is a dot. *)
Fixpoint until_dot (s : string) : string * option string :=
  match s with
  | EmptyString => (EmptyString, None)
  | String c s' =>
      if Ascii.eqb c "." then (EmptyString, Some s')
      else let '(a, rest) := until_dot s' in (String c a, rest)
  end.

(** [targetParser.FindStringSubmatch(s)] for
    [targetParser = regexp.MustCompile(`^([^.]+)\.([^.]+)\.svc\.cluster\.local$`)]:
    the whole match and the two groups, or the empty slice.  A group
    [[^.]+] followed by [\.] ends at the first dot. *)
Definition targetParser_FindStringSubmatch (s : string) : list string :=
  match until_dot s with
  | (String _ _ as service, Some rest) =>
      match until_dot rest with
      | (String _ _ as app, Some tail) =>
          if String.eqb tail "svc.cluster.local" then [s; service; app] else []
      | _ => []
      end
  | _ => []
  end.

(** [func parseTarget(target string) (string, string, bool)]. *)
Definition parseTarget (target : string) : string * string * bool :=
  match url.Parse target with
  | inr _ => ("", "", false)
  | inl u =>
      match targetParser_FindStringSubmatch (url.Hostname u) with
      | [_; m1; m2] => (m1, m2, true)
      | _ => ("", "", false)
      end
  end.

Section redirectHTTPS.
Variable resolve : string -> string -> string.
Variable note : string -> Z -> string.

(** The [url.URL] literal of [redirectHTTPS]. *)
Definition redirect_target (r : http.Request) : url.URL :=
  {| url.Scheme := "https"; url.Opaque := ""; url.User := None;
     url.Host := http.Host r; url.Path := url.Path (http.URL r);
     url.RawPath := ""; url.ForceQuery := false;
     url.RawQuery := url.RawQuery (http.URL r); url.Fragment := "" |}.

(** [func redirectHTTPS(fn http.HandlerFunc) http.HandlerFunc]. *)
Definition redirectHTTPS (fn : http.HandlerFunc) : http.HandlerFunc :=
  fun w r =>
    if String.eqb (http.Header_Get (http.Header r) "X-Forwarded-Proto") "https" then fn w r
    else
      http.Redirect resolve note w r (url.String_ (redirect_target r))
                    http.StatusMovedPermanently.
End redirectHTTPS.

(** ** Statements the claims about [parseTarget] refer to *)

(** No dot in [s], and at least one byte: what [[^.]+] matches whole. *)
Definition dotless (s : string) : Prop :=
  s <> "" /\ strings.contains s "." = false.

(** The internal name pattern as the specification writes it:
    [<service>.<app>.svc.cluster.local]. *)
Definition internal_name (name service app : string) : Prop :=
  name = service +:+ "." +:+ app +:+ ".svc.cluster.local"
  /\ dotless service /\ dotless app.

(** ** Statements the claim about [redirectHTTPS] refers to *)

(** Text that [escape] leaves as it is in the given mode. *)
Definition unescaped (mode : url.encoding) (s : string) : Prop :=
  strings.all (fun c => negb (url.shouldEscape c mode)) s = true.

(** Text without bytes from 0x80 on. *)
Definition ascii_only (s : string) : Prop :=
  strings.all (fun c => (url.byte c <? 128)%nat) s = true.

(** ** CA-mode handshakes over time *)
Section Handshakes.
Context {Certificate CA Manager World : Type}.
Variable h : Handler Certificate CA Manager World.

(** [handshakes (r, w) (r', w')]: router [r] in world [w] becomes [r']
    in [w'] through any number of calls of the CA-mode callback, with
    any other activity on the world in between.  A call that panics
    has not reached [r.certs.Store] and leaves the router as it was. *)
Inductive handshakes
  : Router Certificate * World -> Router Certificate * World -> Prop :=
| handshakes_refl r w : handshakes (r, w) (r, w)
| handshakes_returned r w hello res r1 w1 cs x :
    run h (generateCertificateCA r hello) w = (Returned (res, r1), w1, cs) ->
    handshakes (r1, w1) x ->
    handshakes (r, w) x
| handshakes_panicked r w hello msg w1 cs x :
    run h (generateCertificateCA r hello) w = (Panicked msg, w1, cs) ->
    handshakes (r, w1) x ->
    handshakes (r, w) x
| handshakes_world r w w1 x :
    handshakes (r, w1) x ->
    handshakes (r, w) x.
End Handshakes.

(** ** A concrete world to run the router in *)
Module Demo.
(** Modelled from the spec: the helpers that make certificates
    ([helpers.CertificateCA], [helpers.CertificateSelfSigned]), the
    router's CA key pair and the ACME manager are not in [router.go];
    a certificate is recorded by who issued it for which name. *)
Inductive Certificate : Type :=
| SignedByCA (host : string) (ca : string) (serial : Z)
| SelfSigned (name : string) (serial : Z)
| IssuedByACME (host : string).

Definition CA : Type := string.
Definition Manager : Type := unit.

(** Modelled from the spec: the in-memory Routing Store of section 4.1
    (target lists, idle flags and in-flight counters per host, an
    unknown host having no targets and not being idle), the replica
    count of each host's backend on the orchestration platform, and
    switches that make the store, the unidle, or the CA fail. *)
Record World : Type := {
  targets : gmap string (list string);
  idle : gmap string bool;
  active : gmap string Z;
  replicas : gmap string Z;
  storage_error : error;
  unidle_error : error;
  ca_error : error;
  serial : Z;
  seed : Z;
  stdout : list (string * list string)
}.

Definition set_targets (w : World) (v : gmap string (list string)) : World :=
  {| targets := v; idle := idle w; active := active w; replicas := replicas w;
     storage_error := storage_error w; unidle_error := unidle_error w;
     ca_error := ca_error w; serial := serial w; seed := seed w; stdout := stdout w |}.

Definition set_idle (w : World) (v : gmap string bool) : World :=
  {| targets := targets w; idle := v; active := active w; replicas := replicas w;
     storage_error := storage_error w; unidle_error := unidle_error w;
     ca_error := ca_error w; serial := serial w; seed := seed w; stdout := stdout w |}.

Definition set_active (w : World) (v : gmap string Z) : World :=
  {| targets := targets w; idle := idle w; active := v; replicas := replicas w;
     storage_error := storage_error w; unidle_error := unidle_error w;
     ca_error := ca_error w; serial := serial w; seed := seed w; stdout := stdout w |}.

Definition set_replicas (w : World) (v : gmap string Z) : World :=
  {| targets := targets w; idle := idle w; active := active w; replicas := v;
     storage_error := storage_error w; unidle_error := unidle_error w;
     ca_error := ca_error w; serial := serial w; seed := seed w; stdout := stdout w |}.

Definition set_serial (w : World) (v : Z) : World :=
  {| targets := targets w; idle := idle w; active := active w; replicas := replicas w;
     storage_error := storage_error w; unidle_error := unidle_error w;
     ca_error := ca_error w; serial := v; seed := seed w; stdout := stdout w |}.

Definition set_seed (w : World) (v : Z) : World :=
  {| targets := targets w; idle := idle w; active := active w; replicas := replicas w;
     storage_error := storage_error w; unidle_error := unidle_error w;
     ca_error := ca_error w; serial := serial w; seed := v; stdout := stdout w |}.

Definition print (w : World) (line : string * list string) : World :=
  {| targets := targets w; idle := idle w; active := active w; replicas := replicas w;
     storage_error := storage_error w; unidle_error := unidle_error w;
     ca_error := ca_error w; serial := serial w; seed := seed w;
     stdout := stdout w ++ [line] |}.

(** A store operation: fails with the store's error when it is down. *)
Definition store {A : Type} (w : World) (failed : A) (ok : A * World) : (A * error) * World :=
  match storage_error w with
  | Some e => ((failed, Some e), w)
  | None => ((ok.1, None), ok.2)
  end.

Definition store_ (w : World) (ok : World) : error * World :=
  match storage_error w with
  | Some e => (Some e, w)
  | None => (None, ok)
  end.

Definition targets_of (w : World) (host : string) : list string :=
  default [] (targets w !! host).

(** Modelled from the spec: how the collaborators answer the router's
    calls.  The Routing Store follows the contract of section 4.1;
    [HostIdleStatus] reports whether the backend is scaled to zero and
    [HostUnidle] scales it from zero and clears the idle flag;
    [rand.Intn(n)] answers [seed mod n]; the ACME manager refuses a
    hello without server name. *)
Definition handle : Handler Certificate CA Manager World :=
  fun c =>
    match c as c0 return World -> Resp Certificate CA Manager c0 * World with
    | StorageIdleGet host => fun w =>
        store w false (default false (idle w !! host), w)
    | StorageIdleSet host b => fun w =>
        store_ w (set_idle w (<[host := b]> (idle w)))
    | StorageRequestBegin host => fun w =>
        store_ w (set_active w (<[host := (default 0 (active w !! host) + 1)%Z]> (active w)))
    | StorageRequestEnd host => fun w =>
        store_ w (set_active w (<[host := (default 0 (active w !! host) - 1)%Z]> (active w)))
    | StorageTargetAdd host target => fun w =>
        store_ w (if bool_decide (target ∈ targets_of w host) then w
                  else set_targets w (<[host := targets_of w host ++ [target]]> (targets w)))
    | StorageTargetList host => fun w =>
        store w [] (targets_of w host, w)
    | StorageTargetRemove host target => fun w =>
        store_ w (set_targets w (<[host := filter (fun t => t <> target) (targets_of w host)]> (targets w)))
    | RouterHostUnidle host => fun w =>
        match unidle_error w with
        | Some e => (Some e, w)
        | None => (None, set_idle (set_replicas w (<[host := 1%Z]> (replicas w)))
                                  (<[host := false]> (idle w)))
        end
    | RouterHostIdleStatus host => fun w =>
        ((bool_decide (default 0%Z (replicas w !! host) = 0%Z), None), w)
    | RouterCa => fun w => (("rack-ca", ca_error w), w)
    | HelpersCertificateCA host ca => fun w =>
        ((Some (SignedByCA host ca (serial w)), None), set_serial w (serial w + 1)%Z)
    | HelpersCertificateSelfSigned name => fun w =>
        ((Some (SelfSigned name (serial w)), None), set_serial w (serial w + 1)%Z)
    | AutocertGetCertificate _ hello => fun w =>
        if decide (ServerName hello = "")
        then ((None, Some "acme/autocert: missing server name"), w)
        else ((Some (IssuedByACME (ServerName hello)), None), w)
    | RandIntn n => fun w => ((seed w mod n)%Z, set_seed w (seed w + 1)%Z)
    | FmtPrintf format args => fun w => (tt, print w (format, args))
    end.

(** A fresh rack: nothing registered, everything up. *)
Definition empty : World :=
  {| targets := ∅; idle := ∅; active := ∅; replicas := ∅;
     storage_error := None; unidle_error := None; ca_error := None;
     serial := 0; seed := 0; stdout := [] |}.

(** Two replicas behind [app.example.com]. *)
Definition serving : World :=
  set_replicas
    (set_targets empty {[ "app.example.com" := ["http://web.myapp.svc.cluster.local:3000";
                                                "http://web2.myapp.svc.cluster.local:3000"] ]})
    {[ "app.example.com" := 2%Z ]}.

(** The same rack with the durable store unreachable. *)
Definition store_down : World :=
  {| targets := targets serving; idle := idle serving; active := active serving;
     replicas := replicas serving;
     storage_error := Some "RequestError: send request failed";
     unidle_error := None; ca_error := None; serial := 0; seed := 0; stdout := [] |}.

(** [app.example.com] marked idle while its backend cannot be scaled up. *)
Definition idle_stuck : World :=
  {| targets := targets serving; idle := {[ "app.example.com" := true ]};
     active := {[ "app.example.com" := 0%Z ]};
     replicas := {[ "app.example.com" := 0%Z ]};
     storage_error := None;
     unidle_error := Some "timeout waiting for deployment";
     ca_error := None; serial := 0; seed := 0; stdout := [] |}.

(** [app.example.com] still marked idle although its backend runs again. *)
Definition idle_stale : World :=
  {| targets := targets serving; idle := {[ "app.example.com" := true ]};
     active := ∅;
     replicas := {[ "app.example.com" := 1%Z ]};
     storage_error := None; unidle_error := None;
     ca_error := None; serial := 0; seed := 0; stdout := [] |}.

(** A router that has issued no certificate yet. *)
Definition router : Router Certificate :=
  {| certs := ∅; ip := "10.0.0.1"; prefix := "10.1."; service := "10.1.0.7" |}.

Definition hello (name : string) : ClientHelloInfo := {| ServerName := name |}.

(** A plaintext request for [http://app.example.com/foo?x=1]. *)
Definition request (headers : gmap string (list string)) : http.Request :=
  {| http.Method := "GET";
     http.Host := "app.example.com";
     http.URL := {| url.Scheme := ""; url.Opaque := ""; url.User := None; url.Host := "";
                    url.Path := "/foo"; url.RawPath := ""; url.ForceQuery := false;
                    url.RawQuery := "x=1"; url.Fragment := "" |};
     http.Header := headers |}.

Definition blank : http.ResponseWriter :=
  {| http.header := ∅; http.status := None; http.body := "" |}.

(** The HTTPS handler, as far as the redirect is concerned: it answers 200. *)
Definition https : http.HandlerFunc :=
  fun w r => {| http.header := http.header w; http.status := Some 200%Z;
                http.body := http.body w +:+ "ok" |}.

Definition resolve (oldpath target : string) : string := oldpath +:+ target.
Definition note (target : string) (code : Z) : string := "Moved Permanently".
End Demo.

(** ** More of [router.go] *)

(** [strings.Split(s, sep)] for a one-byte separator: the parts of [s]
    between the separators, a single empty part for the empty string. *)
Fixpoint Split (s : string) (sep : ascii) : list string :=
  match s with
  | EmptyString => [EmptyString]
  | String c s' =>
      if Ascii.eqb c sep then EmptyString :: Split s' sep
      else
        match Split s' sep with
        | part :: parts => String c part :: parts
        | [] => [String c EmptyString]
        end
  end.

(** What [New] leaves in [r.prefix] for the value of [POD_IP]:
    [parts[0].parts[1].] when the address has more than two parts, and
    the zero value otherwise. *)
Definition New_prefix (pod_ip : string) : string :=
  match Split pod_ip "." with
  | p0 :: p1 :: _ :: _ => p0 +:+ "." +:+ p1 +:+ "."
  | _ => ""
  end.

Section AutocertHandshakes.
Context {Certificate CA Manager : Type}.

(** A sequence of TLS handshakes in automated-issuance mode: the
    listener calls the callback [generateCertificateAutocert(m)] once
    per ClientHello and collects what it returns. *)
Fixpoint handshakesAutocert (m : Manager) (hellos : list ClientHelloInfo)
  : Prog Certificate CA Manager (list (option Certificate * error)) :=
  match hellos with
  | [] => Ret []
  | hello :: rest =>
      res ← generateCertificateAutocert m hello;
      more ← handshakesAutocert m rest;
      Ret (res :: more)
  end.

(** The call the callback of automated-issuance mode makes for [hello]. *)
Definition autocert_call (m : Manager) (hello : ClientHelloInfo) : Call CA Manager :=
  if decide (ServerName hello = "") then HelpersCertificateSelfSigned "convox"
  else AutocertGetCertificate m hello.
End AutocertHandshakes.

(** ** Statements about targets the rack registers *)

(** A byte of a service or application name: a letter, a digit or a
    hyphen. *)
Definition namechar (c : ascii) : bool :=
  url.isalpha c || url.isdigit c || Ascii.eqb c "-".

(** A byte of a dotted host name: a name byte or a dot. *)
Definition hostchar (c : ascii) : bool :=
  namechar c || Ascii.eqb c ".".

(** A byte of a host with its port: a name byte, a dot or a colon. *)
Definition authchar (c : ascii) : bool :=
  namechar c || Ascii.eqb c "." || Ascii.eqb c ":".

(** A rack whose CA cannot be loaded. *)
Definition ca_down : Demo.World :=
  {| Demo.targets := ∅; Demo.idle := ∅; Demo.active := ∅; Demo.replicas := ∅;
     Demo.storage_error := None; Demo.unidle_error := None;
     Demo.ca_error := Some "open ca.key: no such file or directory";
     Demo.serial := 0; Demo.seed := 0; Demo.stdout := [] |}.

(** A plaintext request for [http://app.example.com/a b?x=1]. *)
Definition request_with_space : http.Request :=
  {| http.Method := "GET";
     http.Host := "app.example.com";
     http.URL := {| url.Scheme := ""; url.Opaque := ""; url.User := None; url.Host := "";
                    url.Path := "/a b"; url.RawPath := ""; url.ForceQuery := false;
                    url.RawQuery := "x=1"; url.Fragment := "" |};
     http.Header := ∅ |}.

(** The target [<scheme>://<service>.<app>.svc.cluster.local:<port>]. *)
Definition internal_target (scheme service app port : string) : string :=
  scheme +:+ "://" +:+ service +:+ "." +:+ app +:+ ".svc.cluster.local:" +:+ port.

(** * Properties *)

(** A call that differs in its constructor from every call made. *)
Ltac not_called :=
  cbn; repeat (apply not_elem_of_cons; split; [discriminate|]); apply not_elem_of_nil.

(** ** Route *)
Section RouteProperties.
Context {Certificate CA Manager World : Type}.
Implicit Types (h : Handler Certificate CA Manager World) (w : World).

(** What [Route] does once [TargetList] has answered. *)
Lemma run_Route h w host :
  run h (Route host) w =
  let '(ts, err, w1) := h (StorageTargetList host) w in
  let '(o, w2, cs) :=
    match err with
    | Some _ => (Returned ("", Some "no backends available"), w1, [])
    | None =>
        if (len ts <? 1)%Z then (Returned ("", Some "no backends available"), w1, [])
        else run h (k ← rand_Intn (len ts); t ← index ts k; Ret (t, None)) w1
    end in
  (o, w2, StorageTargetList host :: cs).
Proof.
  unfold Route, TargetList, call. cbn.
  destruct (h (StorageTargetList host) w) as [[ts err] w1]. cbn.
  destruct err; [reflexivity|].
  destruct (len ts <? 1)%Z; reflexivity.
Qed.

(** A draw inside the slice picks the entry at that position. *)
Lemma run_pick h w (ts : list string) t (k : Z) :
  (h (RandIntn (len ts)) w).1 = k ->
  (0 <= k)%Z -> ts !! Z.to_nat k = Some t ->
  outcome (run h (k ← rand_Intn (len ts); t ← index ts k; Ret (t, None)) w)
  = Returned (t, None : error).
Proof.
  intros Hk Hk0 Ht.
  assert (Hlen : (0 < len ts)%Z).
  { apply lookup_lt_Some in Ht. unfold len. lia. }
  unfold rand_Intn, call. destruct (Z.leb_spec (len ts) 0) as [|_]; [lia|].
  cbn. destruct (h (RandIntn (len ts)) w) as [k' w1]. cbn in Hk. subst k'.
  unfold index. destruct (Z.leb_spec 0 k) as [_|]; [|lia].
  rewrite Ht. reflexivity.
Qed.

(** Overriding the draw does not change what the store answers. *)
Lemma with_draw_TargetList h k host w :
  with_draw h k (StorageTargetList host) w = h (StorageTargetList host) w.
Proof. reflexivity. Qed.

Lemma with_draw_RandIntn h k n w : (with_draw h k (RandIntn n) w).1 = k.
Proof. reflexivity. Qed.
End RouteProperties.

Section RouteClaims.
Context {Certificate CA Manager World : Type}.
Implicit Types (h : Handler Certificate CA Manager World) (w : World).

(** C1.  When the Routing Store lists no target for [host] (the host
    is unknown, or known with an empty target set), [Route host]
    returns the empty target with the error "no backends available":
    it does not panic, it makes the one [TargetList] call and no random
    draw, and being a finite program it cannot hang. *)
Theorem Route_no_backends h w host err :
  (h (StorageTargetList host) w).1 = ([], err) ->
  run h (Route host) w
  = (Returned ("", Some "no backends available"),
     (h (StorageTargetList host) w).2,
     [StorageTargetList host]).
Proof.
  intros Hts. rewrite run_Route.
  destruct (h (StorageTargetList host) w) as [[ts e] w1]. cbn in Hts.
  injection Hts as -> ->. cbn. destruct err; reflexivity.
Qed.

(** C2.  When the Routing Store lists a non-empty [ts] for [host],
    [Route host] succeeds with the entry of [ts] at the position
    [rand.Intn(len(ts))] draws, an element of [ts]; and running it once
    for each of the [len(ts)] values the draw can take returns each
    entry of [ts] exactly once, in order: a uniform draw gives a
    uniform choice among the entries. *)
Theorem Route_picks_uniformly h w host ts :
  (h (StorageTargetList host) w).1 = (ts, None) ->
  ts <> [] ->
  (0 <= (h (RandIntn (len ts)) (h (StorageTargetList host) w).2).1 < len ts)%Z ->
  (exists t,
      outcome (run h (Route host) w) = Returned (t, None)
      /\ ts !! Z.to_nat (h (RandIntn (len ts)) (h (StorageTargetList host) w).2).1 = Some t
      /\ t ∈ ts)
  /\ (fun k => outcome (run (with_draw h k) (Route host) w)) <$> seqZ 0 (len ts)
     = (fun t => Returned (t, None)) <$> ts.
Proof.
  intros Hts Hne Hk.
  assert (Hlen : (len ts <? 1)%Z = false).
  { destruct ts; [done|]. unfold len. cbn [List.length]. apply Z.ltb_ge. lia. }
  split.
  - remember (h (RandIntn (len ts)) (h (StorageTargetList host) w).2).1 as k eqn:Ek.
    destruct (lookup_lt_is_Some_2 ts (Z.to_nat k)) as [t Ht].
    { unfold len in Hk. lia. }
    exists t. split; [|split; [exact Ht|by eapply list_elem_of_lookup_2]].
    rewrite run_Route.
    destruct (h (StorageTargetList host) w) as [[ts' e] w1].
    cbn in Hts, Ek. injection Hts as -> ->. rewrite Hlen.
    pose proof (run_pick h w1 ts t k (eq_sym Ek) (proj1 Hk) Ht) as Hp.
    destruct (run h _ w1) as [[o w2] cs]. exact Hp.
  - apply list_eq. intros i. rewrite !list_lookup_fmap.
    destruct (ts !! i) as [t|] eqn:Ht.
    + pose proof (lookup_lt_Some _ _ _ Ht) as Hi.
      rewrite (lookup_seqZ_lt 0 (len ts) i) by (unfold len; lia).
      cbn [fmap option_fmap option_map]. f_equal. rewrite run_Route, with_draw_TargetList.
      destruct (h (StorageTargetList host) w) as [[ts' e] w1].
      cbn in Hts. injection Hts as -> ->. rewrite Hlen.
      pose proof (run_pick (with_draw h (0 + Z.of_nat i)%Z) w1 ts t (0 + Z.of_nat i)%Z) as Hp.
      destruct (run (with_draw h (0 + Z.of_nat i)%Z) _ w1) as [[o w2] cs].
      apply Hp; [reflexivity|lia|]. by rewrite Z.add_0_l, Nat2Z.id.
    + pose proof (lookup_ge_None_1 _ _ Ht) as Hi.
      rewrite (lookup_seqZ_ge 0 (len ts) i) by (unfold len; lia). reflexivity.
Qed.

(** C7, amended.  When the Routing Store read fails, [Route host]
    returns the error "no backends available", the same error as for
    an empty target list; the store's own error is not passed on. *)
Theorem Route_storage_failure h w host ts e :
  (h (StorageTargetList host) w).1 = (ts, Some e) ->
  run h (Route host) w
  = (Returned ("", Some "no backends available"),
     (h (StorageTargetList host) w).2,
     [StorageTargetList host]).
Proof.
  intros Hts. rewrite run_Route.
  destruct (h (StorageTargetList host) w) as [[ts' e'] w1]. cbn in Hts.
  injection Hts as -> ->. reflexivity.
Qed.
End RouteClaims.

(** ** RequestBegin and TargetAdd *)
Section IdleClaims.
Context {Certificate CA Manager World : Type}.
Implicit Types (h : Handler Certificate CA Manager World) (w : World).

(** C5.  [RequestBegin host] first reads the idle flag.  If the read
    fails it returns an error after that single call.  If the flag is
    true it calls [HostUnidle] next, before any call of the storage
    [RequestBegin]; if the unidle fails it returns an error after these
    two calls.  On both failures the storage [RequestBegin] is not
    called, the world is the one the read (and the unidle) left, and so
    any in-flight counter that the read and the unidle do not touch is
    unchanged.  Otherwise the storage [RequestBegin] is the last call and
    its result is the result. *)
Theorem RequestBegin_unidle_first h w host idle err w1 :
  h (StorageIdleGet host) w = ((idle, err), w1) ->
  (exists rest, calls (run h (RequestBegin host) w) = StorageIdleGet host :: rest)
  /\ (forall e, err = Some e ->
        run h (RequestBegin host) w
        = (Returned (Some ("could not fetch idle status: " +:+ e)), w1,
           [StorageIdleGet host]))
  /\ (err = None -> idle = true ->
      forall uerr w2, h (RouterHostUnidle host) w1 = (uerr, w2) ->
        (forall e, uerr = Some e ->
           run h (RequestBegin host) w
           = (Returned (Some ("could not unidle: " +:+ e)), w2,
              [StorageIdleGet host; RouterHostUnidle host]))
        /\ (uerr = None ->
            run h (RequestBegin host) w
            = (Returned (h (StorageRequestBegin host) w2).1,
               (h (StorageRequestBegin host) w2).2,
               [StorageIdleGet host; RouterHostUnidle host; StorageRequestBegin host])))
  /\ (err = None -> idle = false ->
      run h (RequestBegin host) w
      = (Returned (h (StorageRequestBegin host) w1).1,
         (h (StorageRequestBegin host) w1).2,
         [StorageIdleGet host; StorageRequestBegin host]))
  /\ (forall inflight : World -> Z,
        (forall w0, inflight (h (StorageIdleGet host) w0).2 = inflight w0) ->
        (forall w0, inflight (h (RouterHostUnidle host) w0).2 = inflight w0) ->
        (err <> None \/ (idle = true /\ (h (RouterHostUnidle host) w1).1 <> None)) ->
        (exists e, outcome (run h (RequestBegin host) w) = Returned (Some e))
        /\ (StorageRequestBegin host ∉ calls (run h (RequestBegin host) w))
        /\ inflight (final (run h (RequestBegin host) w)) = inflight w).
Proof.
  intros Hget.
  assert (Hrun : run h (RequestBegin host) w =
    match err with
    | Some e => (Returned (Some ("could not fetch idle status: " +:+ e)), w1,
                 [StorageIdleGet host])
    | None =>
        if idle then
          match (h (RouterHostUnidle host) w1).1 with
          | Some e => (Returned (Some ("could not unidle: " +:+ e)),
                       (h (RouterHostUnidle host) w1).2,
                       [StorageIdleGet host; RouterHostUnidle host])
          | None =>
              (Returned (h (StorageRequestBegin host) (h (RouterHostUnidle host) w1).2).1,
               (h (StorageRequestBegin host) (h (RouterHostUnidle host) w1).2).2,
               [StorageIdleGet host; RouterHostUnidle host; StorageRequestBegin host])
          end
        else (Returned (h (StorageRequestBegin host) w1).1,
              (h (StorageRequestBegin host) w1).2,
              [StorageIdleGet host; StorageRequestBegin host])
    end).
  { unfold RequestBegin, call. cbn. rewrite Hget. cbn.
    destruct err as [e|]; [reflexivity|]. destruct idle; cbn.
    - destruct (h (RouterHostUnidle host) w1) as [[e|] w2]; cbn; [reflexivity|].
      destruct (h (StorageRequestBegin host) w2) as [res w3]. reflexivity.
    - destruct (h (StorageRequestBegin host) w1) as [res w3]. reflexivity. }
  rewrite Hrun. clear Hrun.
  split; [|split; [|split; [|split]]].
  - destruct err; [eauto|]. destruct idle; [|eauto].
    destruct (h (RouterHostUnidle host) w1).1; eauto.
  - intros e ->. reflexivity.
  - intros -> -> uerr w2 Hu. rewrite Hu. cbn. split.
    + intros e ->. reflexivity.
    + intros ->. reflexivity.
  - intros -> ->. reflexivity.
  - intros inflight Hread Hunidle Hfail.
    assert (Hw1 : inflight w1 = inflight w).
    { rewrite <- (Hread w). by rewrite Hget. }
    destruct err as [e|].
    + split; [eauto|]. split; [not_called|exact Hw1].
    + destruct Hfail as [?|[-> Hu]]; [done|].
      destruct (h (RouterHostUnidle host) w1).1 as [e|] eqn:E; [|done].
      split; [eauto|]. split; [not_called|].
      cbn. by rewrite Hunidle.
Qed.

(** C6.  A successful [TargetAdd host target] has added the target,
    then asked [HostIdleStatus] whether the host is scaled to zero, then
    written exactly that answer as the host's idle flag, all three
    succeeding, and nothing after; on a store that reads back what was
    written the flag then reads as that answer.  In particular, when the
    backend is no longer scaled to zero the flag is written false,
    whatever it was. *)
Theorem TargetAdd_synchronizes_idle h w host target :
  outcome (run h (TargetAdd host target) w) = Returned None ->
  exists idle w0 w1 w2 w3,
    h (FmtPrintf "ns=router at=target.add host=%q target=%q\n" [host; target]) w = (tt, w0)
    /\ h (StorageTargetAdd host target) w0 = (None, w1)
    /\ h (RouterHostIdleStatus host) w1 = ((idle, None), w2)
    /\ h (StorageIdleSet host idle) w2 = (None, w3)
    /\ final (run h (TargetAdd host target) w) = w3
    /\ calls (run h (TargetAdd host target) w)
       = [FmtPrintf "ns=router at=target.add host=%q target=%q\n" [host; target];
          StorageTargetAdd host target; RouterHostIdleStatus host;
          StorageIdleSet host idle]
    /\ ((forall b wa wb, h (StorageIdleSet host b) wa = (None, wb) ->
                         (h (StorageIdleGet host) wb).1 = (b, None)) ->
        (h (StorageIdleGet host) w3).1 = (idle, None))
    /\ (idle = false -> StorageIdleSet host false ∈ calls (run h (TargetAdd host target) w)).
Proof.
  unfold TargetAdd, call. cbn.
  destruct (h (FmtPrintf _ _) w) as [[] w0]. cbn.
  destruct (h (StorageTargetAdd host target) w0) as [[e|] w1] eqn:Hadd; cbn; [done|].
  destruct (h (RouterHostIdleStatus host) w1) as [[idle [e|]] w2] eqn:Hstatus; cbn; [done|].
  destruct (h (StorageIdleSet host idle) w2) as [[e|] w3] eqn:Hset; cbn; [done|].
  intros _. exists idle, w0, w1, w2, w3.
  repeat (split; [done|]). split.
  - intros Hlaw. by apply (Hlaw idle w2 w3).
  - intros ->. cbn. rewrite !elem_of_cons. auto.
Qed.
End IdleClaims.

(** ** Certificates *)
Section CertificateClaims.
Context {Certificate CA Manager World : Type}.
Implicit Types (h : Handler Certificate CA Manager World) (w : World).
Implicit Types (r : Router Certificate) (hello : ClientHelloInfo).

(** A hit in [r.certs] answers without any call and leaves the router. *)
Lemma run_generateCertificateCA_hit h r w hello cert :
  certs r !! ServerName hello = Some (AnyCertificate cert) ->
  run h (generateCertificateCA r hello) w = (Returned (Some cert, None, r), w, []).
Proof. intros Hhit. unfold generateCertificateCA. rewrite Hhit. reflexivity. Qed.

(** A miss loads the CA, signs for [hello.ServerName] and stores the
    certificate under that name. *)
Lemma run_generateCertificateCA_miss h r w hello ca w1 cert w2 :
  certs r !! ServerName hello = None ->
  h RouterCa w = ((ca, None), w1) ->
  h (HelpersCertificateCA (ServerName hello) ca) w1 = ((Some cert, None), w2) ->
  run h (generateCertificateCA r hello) w
  = (Returned (Some cert, None, certs_Store r (ServerName hello) cert), w2,
     [RouterCa; HelpersCertificateCA (ServerName hello) ca]).
Proof.
  intros Hmiss Hca Hsign. unfold generateCertificateCA, call. rewrite Hmiss. cbn.
  rewrite Hca. cbn. rewrite Hsign. reflexivity.
Qed.

(** Whatever a call returns, the router it leaves is the old one or the
    old one with a certificate stored under [hello.ServerName], and the
    latter only when there was no certificate under that name. *)
Lemma generateCertificateCA_router h r w hello res r1 w1 cs :
  run h (generateCertificateCA r hello) w = (Returned (res, r1), w1, cs) ->
  r1 = r
  \/ (exists cert, r1 = certs_Store r (ServerName hello) cert)
     /\ (forall cert, certs r !! ServerName hello <> Some (AnyCertificate cert)).
Proof.
  unfold generateCertificateCA, call.
  destruct (certs r !! ServerName hello) as [[cert0|]|] eqn:Hlook; cbn.
  - intros [= _ <- _ _]. by left.
  - destruct (h RouterCa w) as [[ca [e|]] w0]; cbn; [intros [= _ <- _ _]; by left|].
    destruct (h (HelpersCertificateCA _ ca) w0) as [[[cert|] [e|]] w2]; cbn;
      try (intros [= _ <- _ _]; by left); try done.
    intros [= _ <- _ _]. right. split; [eauto|done].
  - destruct (h RouterCa w) as [[ca [e|]] w0]; cbn; [intros [= _ <- _ _]; by left|].
    destruct (h (HelpersCertificateCA _ ca) w0) as [[[cert|] [e|]] w2]; cbn;
      try (intros [= _ <- _ _]; by left); try done.
    intros [= _ <- _ _]. right. split; [eauto|done].
Qed.

(** No call of the callback removes or replaces a stored certificate. *)
Lemma generateCertificateCA_keeps h r w hello res r1 w1 cs host cert :
  run h (generateCertificateCA r hello) w = (Returned (res, r1), w1, cs) ->
  certs r !! host = Some (AnyCertificate cert) ->
  certs r1 !! host = Some (AnyCertificate cert).
Proof.
  intros Hrun Hhost.
  destruct (generateCertificateCA_router _ _ _ _ _ _ _ _ Hrun) as [->|[[c ->] Hnone]];
    [done|].
  cbn. rewrite lookup_insert_ne; [done|]. intros Heq. apply (Hnone cert). by rewrite Heq.
Qed.

(** Nor does any sequence of handshakes. *)
Lemma handshakes_keep h x y host cert :
  handshakes h x y ->
  certs x.1 !! host = Some (AnyCertificate cert) ->
  certs y.1 !! host = Some (AnyCertificate cert).
Proof.
  induction 1 as [r w|r w hello res r1 w1 cs x Hrun _ IH|r w hello msg w1 cs x _ _ IH
                 |r w w1 x _ IH]; cbn in *; eauto using generateCertificateCA_keeps.
Qed.

(** The callback of CA mode never asks for a self-signed certificate. *)
Lemma generateCertificateCA_no_self_signed h r w hello name :
  HelpersCertificateSelfSigned name ∉ calls (run h (generateCertificateCA r hello) w).
Proof.
  unfold generateCertificateCA, call.
  destruct (certs r !! ServerName hello) as [[cert0|]|]; cbn; [not_called| |].
  all: destruct (h RouterCa w) as [[ca [e|]] w0]; cbn; [not_called|].
  all: destruct (h (HelpersCertificateCA _ ca) w0) as [[[cert|] [e|]] w2]; not_called.
Qed.

(** C3, amended.  In CA mode a ClientHello with an empty ServerName is
    handled like any other: the callback never asks for a self-signed
    certificate; with nothing cached under the empty name it returns,
    and caches under the empty name, the certificate the CA signs for
    the empty host name. *)
Theorem generateCertificateCA_empty_ServerName h r w hello :
  ServerName hello = "" ->
  (forall name,
      HelpersCertificateSelfSigned name ∉ calls (run h (generateCertificateCA r hello) w))
  /\ (forall ca w1 cert w2,
        certs r !! "" = None ->
        h RouterCa w = ((ca, None), w1) ->
        h (HelpersCertificateCA "" ca) w1 = ((Some cert, None), w2) ->
        run h (generateCertificateCA r hello) w
        = (Returned (Some cert, None, certs_Store r "" cert), w2,
           [RouterCa; HelpersCertificateCA "" ca])).
Proof.
  intros Hname. split.
  - intros name. apply generateCertificateCA_no_self_signed.
  - intros ca w1 cert w2 Hmiss Hca Hsign. rewrite <- Hname in *.
    by apply run_generateCertificateCA_miss with (w1 := w1).
Qed.

(** C4.  With no certificate cached for [host], a CA that loads and a
    signing that succeeds, the first call of the callback with
    ServerName [host] has the CA sign a certificate for exactly [host],
    returns it and stores it under [host]; after any further handshakes
    and any other activity the cache still holds it, and a call with
    ServerName [host] returns it without any call at all, so without
    signing, leaving router and world as they are. *)
Theorem generateCertificateCA_signs_once h r w host ca w1 cert w2 :
  certs r !! host = None ->
  h RouterCa w = ((ca, None), w1) ->
  h (HelpersCertificateCA host ca) w1 = ((Some cert, None), w2) ->
  run h (generateCertificateCA r {| ServerName := host |}) w
  = (Returned (Some cert, None, certs_Store r host cert), w2,
     [RouterCa; HelpersCertificateCA host ca])
  /\ certs (certs_Store r host cert) !! host = Some (AnyCertificate cert)
  /\ (forall r' w',
        handshakes h (certs_Store r host cert, w2) (r', w') ->
        certs r' !! host = Some (AnyCertificate cert)
        /\ run h (generateCertificateCA r' {| ServerName := host |}) w'
           = (Returned (Some cert, None, r'), w', [])).
Proof.
  intros Hmiss Hca Hsign.
  assert (Hstored : certs (certs_Store r host cert) !! host = Some (AnyCertificate cert)).
  { cbn. apply lookup_insert_eq. }
  split; [|split; [exact Hstored|]].
  - by apply (run_generateCertificateCA_miss h r w {| ServerName := host |} ca w1 cert w2).
  - intros r' w' Hsteps.
    pose proof (handshakes_keep h _ _ host cert Hsteps Hstored) as Hkept. cbn in Hkept.
    split; [exact Hkept|]. by apply run_generateCertificateCA_hit.
Qed.

(** C8, amended.  In automated-issuance mode a ClientHello with an
    empty ServerName is answered by the router itself, with the
    certificate [helpers.CertificateSelfSigned("convox")] returns and no
    call to the ACME manager; every other ClientHello is handed to the
    manager's [GetCertificate], whose result is the result. *)
Theorem generateCertificateAutocert_cases h w (m : Manager) hello :
  (ServerName hello = "" ->
   run h (generateCertificateAutocert m hello) w
   = (Returned (h (HelpersCertificateSelfSigned "convox") w).1,
      (h (HelpersCertificateSelfSigned "convox") w).2,
      [HelpersCertificateSelfSigned "convox"]))
  /\ (ServerName hello <> "" ->
      run h (generateCertificateAutocert m hello) w
      = (Returned (h (AutocertGetCertificate m hello) w).1,
         (h (AutocertGetCertificate m hello) w).2,
         [AutocertGetCertificate m hello])).
Proof.
  unfold generateCertificateAutocert, call. split; intros Hname.
  - destruct (decide (ServerName hello = "")); [|done]. cbn.
    destruct (h (HelpersCertificateSelfSigned "convox") w). reflexivity.
  - destruct (decide (ServerName hello = "")); [done|]. cbn.
    destruct (h (AutocertGetCertificate m hello) w). reflexivity.
Qed.
End CertificateClaims.

(** ** parseTarget *)

#[local] Arguments Ascii.eqb : simpl never.
#[local] Arguments String.eqb : simpl never.

Lemma until_dot_append a rest :
  strings.contains a "." = false ->
  until_dot (a +:+ "." +:+ rest) = (a, Some rest).
Proof.
  induction a as [|c a IH]; [reflexivity|]. cbn.
  intros Hc. apply orb_false_elim in Hc as [Hc Ha].
  change (until_dot (String c (a +:+ "." +:+ rest)) = (String c a, Some rest)).
  cbn [until_dot]. by rewrite Hc, IH.
Qed.

Lemma until_dot_Some s a rest :
  until_dot s = (a, Some rest) ->
  s = a +:+ "." +:+ rest /\ strings.contains a "." = false.
Proof.
  revert a. induction s as [|c s IH]; cbn; [done|]. intros a.
  destruct (Ascii.eqb_spec c ".") as [->|Hc].
  - intros [= <- <-]. done.
  - destruct (until_dot s) as [a' r']. intros [= <- ->].
    destruct (IH a' eq_refl) as [-> Ha]. split; [reflexivity|].
    cbn. rewrite Ha. by destruct (Ascii.eqb_spec c ".").
Qed.

(** The matcher finds exactly the names of the internal form, with
    their service and application. *)
Lemma targetParser_internal_name name service app :
  internal_name name service app ->
  targetParser_FindStringSubmatch name = [name; service; app].
Proof.
  intros (-> & [Hs Hsd] & [Ha Had]). unfold targetParser_FindStringSubmatch.
  rewrite until_dot_append by done.
  destruct service as [|c service]; [done|].
  change ".svc.cluster.local" with ("." +:+ "svc.cluster.local").
  rewrite until_dot_append by done.
  destruct app as [|d app]; [done|]. reflexivity.
Qed.

Lemma targetParser_found name whole service app :
  targetParser_FindStringSubmatch name = [whole; service; app] ->
  internal_name name service app.
Proof.
  unfold targetParser_FindStringSubmatch.
  destruct (until_dot name) as [[|c s] [rest|]] eqn:Hs; try done.
  destruct (until_dot rest) as [[|d a] [tail|]] eqn:Ha; try done.
  destruct (String.eqb_spec tail "svc.cluster.local") as [->|]; [|done].
  intros [= _ <- <-].
  apply until_dot_Some in Hs as [-> Hsd]. apply until_dot_Some in Ha as [-> Had].
  repeat split; done.
Qed.

Lemma targetParser_shape name :
  targetParser_FindStringSubmatch name = []
  \/ exists service app, targetParser_FindStringSubmatch name = [name; service; app].
Proof.
  unfold targetParser_FindStringSubmatch.
  destruct (until_dot name) as [[|c s] [rest|]]; auto.
  destruct (until_dot rest) as [[|d a] [tail|]]; auto.
  destruct (String.eqb tail "svc.cluster.local"); eauto.
Qed.

(** C10, amended.  [parseTarget] reads the target as a URL and looks at
    the host name of that URL (its host without the port): it returns
    [(service, app, true)] exactly when the target parses and that host
    name has the internal form [<service>.<app>.svc.cluster.local] with
    [service] and [app] non-empty and free of dots, and the empty
    strings with [false] in every other case. *)
Theorem parseTarget_by_hostname target :
  (forall u service app,
      url.Parse target = inl u ->
      internal_name (url.Hostname u) service app ->
      parseTarget target = (service, app, true))
  /\ (forall service app,
        parseTarget target = (service, app, true) ->
        exists u, url.Parse target = inl u /\ internal_name (url.Hostname u) service app)
  /\ (parseTarget target = ("", "", false)
      \/ exists service app, parseTarget target = (service, app, true)).
Proof.
  unfold parseTarget. split; [|split].
  - intros u service app -> Hname.
    by rewrite (targetParser_internal_name _ _ _ Hname).
  - intros service app. destruct (url.Parse target) as [u|e]; [|done].
    destruct (targetParser_shape (url.Hostname u)) as [->|(s & a & Hm)]; [done|].
    rewrite Hm. intros [= <- <-]. exists u. split; [done|].
    by apply targetParser_found in Hm.
  - destruct (url.Parse target) as [u|e]; [|by left].
    destruct (targetParser_shape (url.Hostname u)) as [->|(s & a & ->)]; [by left|].
    right. eauto.
Qed.

(** ** redirectHTTPS *)

Lemma append_assoc (a b c : string) : (a +:+ b) +:+ c = a +:+ (b +:+ c).
Proof.
  induction a as [|x a IH]; [reflexivity|].
  change (String x ((a +:+ b) +:+ c) = String x (a +:+ (b +:+ c))). by rewrite IH.
Qed.

Lemma append_empty_r (a : string) : a +:+ "" = a.
Proof.
  induction a as [|x a IH]; [reflexivity|].
  change (String x (a +:+ "") = String x a). by rewrite IH.
Qed.

Lemma all_append p (a b : string) :
  strings.all p (a +:+ b) = strings.all p a && strings.all p b.
Proof.
  induction a as [|x a IH]; [reflexivity|].
  change (p x && strings.all p (a +:+ b) = p x && strings.all p a && strings.all p b).
  rewrite IH. by destruct (p x).
Qed.

(** Bytes that need no escaping are ASCII. *)
Lemma shouldEscape_ascii c mode :
  url.shouldEscape c mode = false -> (url.byte c <? 128)%nat = true.
Proof.
  destruct c as [b0 b1 b2 b3 b4 b5 b6 b7].
  destruct b7; [|intros _; by destruct b0, b1, b2, b3, b4, b5, b6].
  destruct b0, b1, b2, b3, b4, b5, b6, mode; vm_compute; congruence.
Qed.

(** Text made of such bytes is its own escaped form. *)
Lemma escape_plain s mode :
  strings.all (fun c => negb (url.shouldEscape c mode)) s = true ->
  url.escape s mode = s.
Proof.
  induction s as [|c s IH]; [reflexivity|]. cbn [strings.all url.escape].
  intros [Hc Hs]%andb_prop. apply negb_true_iff in Hc. rewrite Hc. by rewrite IH.
Qed.

Lemma plain_ascii s mode :
  strings.all (fun c => negb (url.shouldEscape c mode)) s = true ->
  strings.all (fun c => (url.byte c <? 128)%nat) s = true.
Proof.
  induction s as [|c s IH]; [reflexivity|]. cbn [strings.all].
  intros [Hc Hs]%andb_prop. apply negb_true_iff in Hc.
  by rewrite (shouldEscape_ascii _ _ Hc), IH.
Qed.

Lemma hexEscapeNonASCII_ascii s :
  strings.all (fun c => (url.byte c <? 128)%nat) s = true ->
  http.hexEscapeNonASCII s = s.
Proof.
  induction s as [|c s IH]; [reflexivity|]. cbn [strings.all http.hexEscapeNonASCII].
  intros [Hc Hs]%andb_prop. apply Nat.ltb_lt in Hc.
  destruct (Nat.leb_spec 128 (url.byte c)); [lia|]. by rewrite IH.
Qed.

(** A parse keeps the scheme it was given. *)
Lemma parse_rest_Scheme scheme rest u :
  url.parse_rest scheme rest = inl u -> url.Scheme u = scheme.
Proof.
  unfold url.parse_rest. intros Hu.
  repeat (case_match; simplify_eq); reflexivity.
Qed.

Lemma parse_https rest u :
  url.parse ("https:" +:+ rest) = inl u -> url.Scheme u = "https".
Proof.
  unfold url.parse. destruct (url.stringContainsCTLByte _); [done|].
  destruct (String.eqb_spec ("https:" +:+ rest) "*") as [Heq|_]; [discriminate Heq|].
  change (url.getscheme ("https:" +:+ rest)) with ("https", rest, None : error).
  apply parse_rest_Scheme.
Qed.

Lemma Parse_https rest u :
  url.Parse ("https:" +:+ rest) = inl u -> url.Scheme u = "https".
Proof.
  unfold url.Parse, url.split.
  change (strings.Index ("https:" +:+ rest) "#")
    with (S <$> (S <$> (S <$> (S <$> (S <$> (S <$> strings.Index rest "#")))))).
  destruct (strings.Index rest "#") as [i|]; cbn [fmap option_fmap option_map].
  - change (strings.upto ("https:" +:+ rest) (S (S (S (S (S (S i)))))))
      with ("https:" +:+ strings.upto rest i).
    destruct (url.parse _) as [v|e] eqn:Hv; [|done]. apply parse_https in Hv.
    intros Hu. repeat (case_match; simplify_eq); exact Hv.
  - destruct (url.parse _) as [v|e] eqn:Hv; [|done]. apply parse_https in Hv.
    by intros [= <-].
Qed.

(** The redirect target always starts with the https scheme. *)
Lemma redirect_target_https r :
  exists rest, url.String_ (redirect_target r) = "https:" +:+ rest.
Proof. eexists. reflexivity. Qed.

(** With a host and a rooted path that need no escaping, the redirect
    target reads scheme, host, path and, if there is one, the query. *)
Lemma String_redirect_target r :
  unescaped url.encodeHost (http.Host r) ->
  unescaped url.encodePath (url.Path (http.URL r)) ->
  strings.HasPrefix (url.Path (http.URL r)) "/" = true ->
  url.String_ (redirect_target r)
  = "https://" +:+ http.Host r +:+ url.Path (http.URL r) +:+
    (if String.eqb (url.RawQuery (http.URL r)) "" then ""
     else "?" +:+ url.RawQuery (http.URL r)).
Proof.
  intros Hhost Hpath Hroot. unfold url.String_, url.EscapedPath, redirect_target.
  cbn [url.Scheme url.Opaque url.User url.Host url.Path url.RawPath url.ForceQuery
       url.RawQuery url.Fragment].
  rewrite (escape_plain _ _ Hhost), (escape_plain _ _ Hpath).
  destruct (url.Path (http.URL r)) as [|c p]; [discriminate Hroot|].
  unfold strings.HasPrefix in Hroot. cbn [String.prefix] in Hroot.
  destruct (ascii_dec "/" c) as [<-|]; [clear Hroot|discriminate Hroot].
  change ("https" =? "")%string with false. change ("" =? "")%string with true.
  change (String "/" p =? "")%string with false.
  destruct (String.eqb_spec (String "/" p) "*") as [Heq|_]; [discriminate Heq|].
  change ("/" =? "/")%char with true.
  cbn [negb orb andb].
  destruct (String.eqb_spec (http.Host r) "") as [->|_];
    destruct (url.RawQuery (http.URL r) =? "")%string;
    cbn [negb orb andb]; rewrite ?append_assoc, ?append_empty_r; reflexivity.
Qed.

(** The url [redirectHTTPS] passes to [http.Redirect] has a scheme, so
    the redirect writes it as the Location, with status 301. *)
Lemma Redirect_https resolve note w r code rest :
  http.status (http.Redirect resolve note w r ("https:" +:+ rest) code) = Some code
  /\ http.header (http.Redirect resolve note w r ("https:" +:+ rest) code) !! "Location"
     = Some [http.hexEscapeNonASCII ("https:" +:+ rest)].
Proof.
  unfold http.Redirect. split; [reflexivity|].
  assert (Hsame :
    match url.Parse ("https:" +:+ rest) with
    | inl u =>
        if (url.Scheme u =? "")%string && (url.Host u =? "")%string
        then resolve (url.Path (http.URL r)) ("https:" +:+ rest)
        else "https:" +:+ rest
    | inr _ => "https:" +:+ rest
    end = "https:" +:+ rest).
  { destruct (url.Parse _) as [u|e] eqn:Hu; [|reflexivity].
    apply Parse_https in Hu. rewrite Hu. reflexivity. }
  rewrite Hsame. cbn [http.header]. unfold http.Header_Set.
  destruct (_ && _); [rewrite lookup_insert_ne by done|]; apply lookup_insert_eq.
Qed.

(** C9.  When the request's X-Forwarded-Proto header is "https" the
    handler is the HTTPS handler on the same writer and request.
    Otherwise it answers with status 301 and a Location that is the
    string form of the URL with scheme https and the request's host, path
    and query; for a host and a rooted path that need no escaping and an
    ASCII query this is [https://<host><path>], followed by [?<query>]
    when the query is not empty. *)
Theorem redirectHTTPS_moves_to_https resolve note fn w r :
  (http.Header_Get (http.Header r) "X-Forwarded-Proto" = "https" ->
   redirectHTTPS resolve note fn w r = fn w r)
  /\ (http.Header_Get (http.Header r) "X-Forwarded-Proto" <> "https" ->
      http.status (redirectHTTPS resolve note fn w r) = Some 301%Z
      /\ http.header (redirectHTTPS resolve note fn w r) !! "Location"
         = Some [http.hexEscapeNonASCII (url.String_ (redirect_target r))]
      /\ (unescaped url.encodeHost (http.Host r) ->
          unescaped url.encodePath (url.Path (http.URL r)) ->
          strings.HasPrefix (url.Path (http.URL r)) "/" = true ->
          ascii_only (url.RawQuery (http.URL r)) ->
          http.header (redirectHTTPS resolve note fn w r) !! "Location"
          = Some ["https://" +:+ http.Host r +:+ url.Path (http.URL r) +:+
                  (if String.eqb (url.RawQuery (http.URL r)) "" then ""
                   else "?" +:+ url.RawQuery (http.URL r))])).
Proof.
  unfold redirectHTTPS.
  destruct (String.eqb_spec (http.Header_Get (http.Header r) "X-Forwarded-Proto") "https")
    as [Hproto|Hproto]; (split; [done|]); [done|]. intros _.
  destruct (redirect_target_https r) as [rest Hrest].
  pose proof (Redirect_https resolve note w r http.StatusMovedPermanently rest)
    as [Hstatus Hloc].
  rewrite <- Hrest in Hstatus, Hloc.
  split; [exact Hstatus|]. split; [exact Hloc|].
  intros Hhost Hpath Hroot Hquery. rewrite Hloc. do 2 f_equal.
  rewrite (String_redirect_target r Hhost Hpath Hroot).
  apply hexEscapeNonASCII_ascii. rewrite !all_append.
  rewrite (plain_ascii _ _ Hhost), (plain_ascii _ _ Hpath).
  destruct (url.RawQuery (http.URL r) =? "")%string; [reflexivity|].
  rewrite all_append, Hquery. reflexivity.
Qed.

(** * The claims on a concrete rack *)

(** C1 on a host the store has never heard of. *)
Lemma Route_no_backends_witness :
  run Demo.handle (Route "unknown.example.com") Demo.serving
  = (Returned ("", Some "no backends available"), Demo.serving,
     [StorageTargetList "unknown.example.com"]).
Proof.
  exact (Route_no_backends Demo.handle Demo.serving "unknown.example.com" None eq_refl).
Defined.

(** C2 on a host with two targets. *)
Lemma Route_picks_uniformly_witness :
  (exists t,
      outcome (run Demo.handle (Route "app.example.com") Demo.serving) = Returned (t, None)
      /\ Demo.targets_of Demo.serving "app.example.com" !! 0%nat = Some t
      /\ t ∈ Demo.targets_of Demo.serving "app.example.com")
  /\ (fun k => outcome (run (with_draw Demo.handle k) (Route "app.example.com") Demo.serving))
       <$> seqZ 0 2
     = [Returned ("http://web.myapp.svc.cluster.local:3000", None);
        Returned ("http://web2.myapp.svc.cluster.local:3000", None)].
Proof.
  apply (Route_picks_uniformly Demo.handle Demo.serving "app.example.com"
           ["http://web.myapp.svc.cluster.local:3000";
            "http://web2.myapp.svc.cluster.local:3000"]).
  - reflexivity.
  - discriminate.
  - vm_compute. split; [discriminate|reflexivity].
Defined.

(** C7 as the claim has it fails on a store that is down: the caller of
    [Route] gets "no backends available", not the store's error, and the
    same result as for a host without targets. *)
Lemma Route_hides_storage_error :
  (Demo.handle (StorageTargetList "app.example.com") Demo.store_down).1
  = ([], Some "RequestError: send request failed")
  /\ outcome (run Demo.handle (Route "app.example.com") Demo.store_down)
     = Returned ("", Some "no backends available")
  /\ outcome (run Demo.handle (Route "app.example.com") Demo.store_down)
     <> Returned ("", Some "RequestError: send request failed")
  /\ outcome (run Demo.handle (Route "app.example.com") Demo.store_down)
     = outcome (run Demo.handle (Route "unknown.example.com") Demo.serving).
Proof. vm_compute. repeat split; discriminate. Qed.

(** C7, amended, on the store that is down. *)
Lemma Route_storage_failure_witness :
  run Demo.handle (Route "app.example.com") Demo.store_down
  = (Returned ("", Some "no backends available"), Demo.store_down,
     [StorageTargetList "app.example.com"]).
Proof.
  exact (Route_storage_failure Demo.handle Demo.store_down "app.example.com" []
           "RequestError: send request failed" eq_refl).
Defined.

(** C5 on an idle host whose backend cannot be scaled up: the unidle is
    tried after the read, the request fails and is not counted. *)
Lemma RequestBegin_unidle_first_witness :
  run Demo.handle (RequestBegin "app.example.com") Demo.idle_stuck
  = (Returned (Some "could not unidle: timeout waiting for deployment"),
     Demo.idle_stuck,
     [StorageIdleGet "app.example.com"; RouterHostUnidle "app.example.com"])
  /\ Demo.active (final (run Demo.handle (RequestBegin "app.example.com") Demo.idle_stuck))
       !! "app.example.com" = Some 0%Z.
Proof.
  destruct (RequestBegin_unidle_first Demo.handle Demo.idle_stuck "app.example.com"
              true None Demo.idle_stuck eq_refl) as (_ & _ & Hidle & _).
  destruct (Hidle eq_refl eq_refl (Some "timeout waiting for deployment")
              Demo.idle_stuck eq_refl) as [Hfail _].
  rewrite (Hfail _ eq_refl). split; reflexivity.
Defined.

(** C6 on a host still marked idle whose backend runs again: the add
    writes the flag false. *)
Lemma TargetAdd_synchronizes_idle_witness :
  Demo.idle Demo.idle_stale !! "app.example.com" = Some true
  /\ Demo.idle (final (run Demo.handle
                         (TargetAdd "app.example.com" "http://web3.myapp.svc.cluster.local:3000")
                         Demo.idle_stale)) !! "app.example.com" = Some false
  /\ exists idle w3,
    Demo.handle (RouterHostIdleStatus "app.example.com")
      (Demo.handle (StorageTargetAdd "app.example.com" "http://web3.myapp.svc.cluster.local:3000")
         (Demo.handle (FmtPrintf "ns=router at=target.add host=%q target=%q\n"
                         ["app.example.com"; "http://web3.myapp.svc.cluster.local:3000"])
            Demo.idle_stale).2).2
    = ((idle, None), w3)
    /\ calls (run Demo.handle
               (TargetAdd "app.example.com" "http://web3.myapp.svc.cluster.local:3000")
               Demo.idle_stale)
       = [FmtPrintf "ns=router at=target.add host=%q target=%q\n"
            ["app.example.com"; "http://web3.myapp.svc.cluster.local:3000"];
          StorageTargetAdd "app.example.com" "http://web3.myapp.svc.cluster.local:3000";
          RouterHostIdleStatus "app.example.com";
          StorageIdleSet "app.example.com" idle].
Proof.
  destruct (TargetAdd_synchronizes_idle Demo.handle Demo.idle_stale "app.example.com"
              "http://web3.myapp.svc.cluster.local:3000" eq_refl)
    as (idle & w0 & w1 & w2 & w3 & Hprint & Hadd & Hstatus & _ & _ & Hcalls & _).
  split; [reflexivity|]. split; [reflexivity|].
  exists idle, w2. split; [|exact Hcalls].
  rewrite Hprint. cbn [snd]. rewrite Hadd. exact Hstatus.
Defined.

(** C3 as the claim has it fails: in CA mode a hello without server
    name gets a certificate signed by the CA for the empty name, stored
    under the empty name; no self-signed certificate is asked for. *)
Lemma generateCertificateCA_signs_empty_name :
  run Demo.handle (generateCertificateCA Demo.router (Demo.hello "")) Demo.empty
  = (Returned (Some (Demo.SignedByCA "" "rack-ca" 0), None,
               certs_Store Demo.router "" (Demo.SignedByCA "" "rack-ca" 0)),
     Demo.set_serial Demo.empty 1,
     [RouterCa; HelpersCertificateCA "" "rack-ca"])
  /\ (forall name serial,
        Demo.SignedByCA "" "rack-ca" 0 <> Demo.SelfSigned name serial)
  /\ (forall name,
        (Demo.handle (HelpersCertificateSelfSigned name) Demo.empty).1.1
        <> Some (Demo.SignedByCA "" "rack-ca" 0)).
Proof. split; [reflexivity|]. split; intros; discriminate. Qed.

(** C3, amended, on a fresh router. *)
Lemma generateCertificateCA_empty_ServerName_witness :
  (forall name,
      HelpersCertificateSelfSigned name
      ∉ calls (run Demo.handle (generateCertificateCA Demo.router (Demo.hello "")) Demo.empty))
  /\ run Demo.handle (generateCertificateCA Demo.router (Demo.hello "")) Demo.empty
     = (Returned (Some (Demo.SignedByCA "" "rack-ca" 0), None,
                  certs_Store Demo.router "" (Demo.SignedByCA "" "rack-ca" 0)),
        Demo.set_serial Demo.empty 1,
        [RouterCa; HelpersCertificateCA "" "rack-ca"]).
Proof.
  destruct (generateCertificateCA_empty_ServerName Demo.handle Demo.router Demo.empty
              (Demo.hello "") eq_refl) as [Hnever Hsign].
  split; [exact Hnever|].
  exact (Hsign "rack-ca" Demo.empty (Demo.SignedByCA "" "rack-ca" 0)
           (Demo.set_serial Demo.empty 1) eq_refl eq_refl eq_refl).
Defined.

(** C4 for [foo.example.com] on a fresh router: signed once, and served
    from the cache after a handshake for another name. *)
Lemma generateCertificateCA_signs_once_witness :
  run Demo.handle (generateCertificateCA Demo.router (Demo.hello "foo.example.com")) Demo.empty
  = (Returned (Some (Demo.SignedByCA "foo.example.com" "rack-ca" 0), None,
               certs_Store Demo.router "foo.example.com"
                 (Demo.SignedByCA "foo.example.com" "rack-ca" 0)),
     Demo.set_serial Demo.empty 1,
     [RouterCa; HelpersCertificateCA "foo.example.com" "rack-ca"])
  /\ run Demo.handle
       (generateCertificateCA
          (certs_Store
             (certs_Store Demo.router "foo.example.com"
                (Demo.SignedByCA "foo.example.com" "rack-ca" 0))
             "bar.example.com" (Demo.SignedByCA "bar.example.com" "rack-ca" 1))
          (Demo.hello "foo.example.com"))
       (Demo.set_serial (Demo.set_serial Demo.empty 1) 2)
     = (Returned (Some (Demo.SignedByCA "foo.example.com" "rack-ca" 0), None,
                  certs_Store
                    (certs_Store Demo.router "foo.example.com"
                       (Demo.SignedByCA "foo.example.com" "rack-ca" 0))
                    "bar.example.com" (Demo.SignedByCA "bar.example.com" "rack-ca" 1)),
        Demo.set_serial (Demo.set_serial Demo.empty 1) 2,
        []).
Proof.
  destruct (generateCertificateCA_signs_once Demo.handle Demo.router Demo.empty
              "foo.example.com" "rack-ca" Demo.empty
              (Demo.SignedByCA "foo.example.com" "rack-ca" 0)
              (Demo.set_serial Demo.empty 1) eq_refl eq_refl eq_refl)
    as (Hfirst & _ & Hlater).
  split; [exact Hfirst|].
  apply Hlater.
  eapply (handshakes_returned Demo.handle _ _ (Demo.hello "bar.example.com"));
    [reflexivity|apply handshakes_refl].
Defined.

(** C8 as the claim has it fails: in automated-issuance mode a hello
    without server name is answered by the router's own self-signed
    certificate, and the ACME manager is not asked. *)
Lemma generateCertificateAutocert_self_signs :
  run Demo.handle (generateCertificateAutocert tt (Demo.hello "")) Demo.empty
  = (Returned (Some (Demo.SelfSigned "convox" 0), None), Demo.set_serial Demo.empty 1,
     [HelpersCertificateSelfSigned "convox"])
  /\ (AutocertGetCertificate tt (Demo.hello "")
      ∉ calls (run Demo.handle (generateCertificateAutocert tt (Demo.hello "")) Demo.empty))
  /\ run Demo.handle (generateCertificateAutocert tt (Demo.hello "")) Demo.empty
     <> (Returned (Demo.handle (AutocertGetCertificate tt (Demo.hello "")) Demo.empty).1,
         (Demo.handle (AutocertGetCertificate tt (Demo.hello "")) Demo.empty).2,
         [AutocertGetCertificate tt (Demo.hello "")]).
Proof.
  split; [reflexivity|]. split; [not_called|]. vm_compute. discriminate.
Qed.

(** C8, amended, on both kinds of hello. *)
Lemma generateCertificateAutocert_cases_witness :
  run Demo.handle (generateCertificateAutocert tt (Demo.hello "")) Demo.empty
  = (Returned (Some (Demo.SelfSigned "convox" 0), None), Demo.set_serial Demo.empty 1,
     [HelpersCertificateSelfSigned "convox"])
  /\ run Demo.handle (generateCertificateAutocert tt (Demo.hello "foo.example.com")) Demo.empty
     = (Returned (Some (Demo.IssuedByACME "foo.example.com"), None), Demo.empty,
        [AutocertGetCertificate tt (Demo.hello "foo.example.com")]).
Proof.
  split.
  - exact (proj1 (generateCertificateAutocert_cases Demo.handle Demo.empty tt (Demo.hello ""))
             eq_refl).
  - apply (proj2 (generateCertificateAutocert_cases Demo.handle Demo.empty tt
                    (Demo.hello "foo.example.com"))).
    discriminate.
Defined.

(** C9 on the specification's example: a plaintext request to
    [/foo?x=1] for [app.example.com] is moved to
    [https://app.example.com/foo?x=1], and one marked as https by the
    upstream goes to the HTTPS handler. *)
Lemma redirectHTTPS_moves_to_https_witness :
  http.status (redirectHTTPS Demo.resolve Demo.note Demo.https Demo.blank (Demo.request ∅))
  = Some 301%Z
  /\ http.header (redirectHTTPS Demo.resolve Demo.note Demo.https Demo.blank (Demo.request ∅))
       !! "Location"
     = Some ["https://app.example.com/foo?x=1"]
  /\ redirectHTTPS Demo.resolve Demo.note Demo.https Demo.blank
       (Demo.request {[ "X-Forwarded-Proto" := ["https"] ]})
     = Demo.https Demo.blank (Demo.request {[ "X-Forwarded-Proto" := ["https"] ]}).
Proof.
  destruct (redirectHTTPS_moves_to_https Demo.resolve Demo.note Demo.https Demo.blank
              (Demo.request ∅)) as [_ Hmove].
  destruct Hmove as (Hstatus & _ & Hloc); [vm_compute; discriminate|].
  split; [exact Hstatus|]. split.
  - apply Hloc; reflexivity.
  - apply (proj1 (redirectHTTPS_moves_to_https Demo.resolve Demo.note Demo.https Demo.blank
                    (Demo.request {[ "X-Forwarded-Proto" := ["https"] ]}))).
    reflexivity.
Defined.

(** C10 as the claim has it fails both ways: the bare internal name is
    not recognised, because as a URL it has no host; and a URL whose
    host is an internal name is recognised although the target string
    itself is not of the internal form. *)
Lemma parseTarget_reads_url_host :
  internal_name "web.myapp.svc.cluster.local" "web" "myapp"
  /\ parseTarget "web.myapp.svc.cluster.local" = ("", "", false)
  /\ (forall service app,
        ~ internal_name "http://web.myapp.svc.cluster.local:3000" service app)
  /\ parseTarget "http://web.myapp.svc.cluster.local:3000" = ("web", "myapp", true).
Proof.
  split; [repeat split; discriminate|]. split; [reflexivity|]. split; [|reflexivity].
  intros service app Hname. apply targetParser_internal_name in Hname.
  vm_compute in Hname. discriminate Hname.
Qed.

(** C10, amended, on a target as the router registers them. *)
Lemma parseTarget_by_hostname_witness :
  parseTarget "http://web.myapp.svc.cluster.local:3000" = ("web", "myapp", true).
Proof.
  apply (proj1 (parseTarget_by_hostname "http://web.myapp.svc.cluster.local:3000")
           {| url.Scheme := "http"; url.Opaque := ""; url.User := None;
              url.Host := "web.myapp.svc.cluster.local:3000"; url.Path := "";
              url.RawPath := ""; url.ForceQuery := false; url.RawQuery := "";
              url.Fragment := "" |}).
  - reflexivity.
  - repeat split; discriminate.
Defined.

(** * More properties of [router.go] *)

(** ** ExternalIP and the prefix of [New] *)

Lemma Split_nonempty s sep : Split s sep <> [].
Proof.
  destruct s as [|c s]; cbn [Split]; [done|].
  destruct (Ascii.eqb c sep); [done|]. by destruct (Split s sep).
Qed.

Lemma Split_append a s :
  strings.contains a "." = false ->
  Split (a +:+ "." +:+ s) "." = a :: Split s ".".
Proof.
  induction a as [|c a IH]; [reflexivity|]. cbn [strings.contains].
  intros [Hc Ha]%orb_false_elim.
  change (Split (String c (a +:+ "." +:+ s)) "." = String c a :: Split s ".").
  cbn [Split]. by rewrite Hc, IH.
Qed.

Lemma prefix_append (a b : string) : String.prefix a (a +:+ b) = true.
Proof.
  induction a as [|c a IH]; [by destruct b|].
  change (String.prefix (String c a) (String c (a +:+ b)) = true).
  cbn [String.prefix]. by destruct (ascii_dec c c).
Qed.

Lemma New_prefix_dotted a b rest :
  strings.contains a "." = false ->
  strings.contains b "." = false ->
  New_prefix (a +:+ "." +:+ b +:+ "." +:+ rest) = a +:+ "." +:+ b +:+ ".".
Proof.
  intros Ha Hb. unfold New_prefix. rewrite (Split_append a), (Split_append b) by done.
  pose proof (Split_nonempty rest ".") as Hne. by destruct (Split rest ".").
Qed.

(** X1.  When [POD_IP] has fewer than three dot-separated parts (it is
    unset, for one), the prefix [New] computes is empty, and
    [ExternalIP] answers the service address for every peer. *)
Theorem ExternalIP_short_pod_ip {Certificate : Type} (r : Router Certificate) pod_ip remote :
  prefix r = New_prefix pod_ip ->
  (List.length (Split pod_ip ".") <= 2)%nat ->
  ExternalIP r remote = service r.
Proof.
  intros Hprefix Hparts. unfold ExternalIP. rewrite Hprefix. unfold New_prefix.
  destruct (Split pod_ip ".") as [|p0 [|p1 [|p2 parts]]]; cbn in Hparts; try lia.
  all: by destruct remote.
Qed.

(** X2.  With [POD_IP] of the form [a.b.rest] the prefix is [a.b.]:
    [ExternalIP] answers the service address for every peer whose
    address starts with [a.b.], and the router's own address for every
    other peer. *)
Theorem ExternalIP_pod_prefix {Certificate : Type} (r : Router Certificate) a b rest :
  strings.contains a "." = false ->
  strings.contains b "." = false ->
  prefix r = New_prefix (a +:+ "." +:+ b +:+ "." +:+ rest) ->
  (forall tail, ExternalIP r ((a +:+ "." +:+ b +:+ ".") +:+ tail) = service r)
  /\ (forall remote,
        strings.HasPrefix remote (a +:+ "." +:+ b +:+ ".") = false ->
        ExternalIP r remote = ip r).
Proof.
  intros Ha Hb Hprefix. unfold ExternalIP. rewrite Hprefix, New_prefix_dotted by done.
  split.
  - intros tail. by rewrite prefix_append.
  - intros remote Hno. unfold strings.HasPrefix in Hno. by rewrite Hno.
Qed.

(** ** Route, TargetAdd and TargetRemove on any store *)
Section MoreRouting.
Context {Certificate CA Manager World : Type}.
Implicit Types (h : Handler Certificate CA Manager World) (w : World).

(** X3.  Whatever the store answers, with a random source that keeps
    [rand.Intn(n)] inside [0, n), [Route] does not panic and returns
    either the empty target with the error "no backends available" (the
    read failed or listed nothing) or, without error, a target that the
    store listed; it makes no call but the read and at most one draw. *)
Theorem Route_total h w host :
  (forall n w', (0 < n)%Z -> (0 <= (h (RandIntn n) w').1 < n)%Z) ->
  ((outcome (run h (Route host) w) = Returned ("", Some "no backends available")
    /\ ((h (StorageTargetList host) w).1.2 <> None \/ (h (StorageTargetList host) w).1.1 = [])
    /\ calls (run h (Route host) w) = [StorageTargetList host])
   \/ (exists t,
         outcome (run h (Route host) w) = Returned (t, None)
         /\ t ∈ (h (StorageTargetList host) w).1.1
         /\ (h (StorageTargetList host) w).1.2 = None
         /\ calls (run h (Route host) w)
            = [StorageTargetList host;
               RandIntn (len (h (StorageTargetList host) w).1.1)])).
Proof.
  intros Hrand. rewrite run_Route.
  destruct (h (StorageTargetList host) w) as [[ts err] w1]. cbn [fst snd].
  destruct err as [e|]; [left; cbn; auto|].
  destruct (Z.ltb_spec (len ts) 1) as [Hlen|Hlen]; [left|right].
  - cbn. split; [done|]. split; [|done]. right.
    destruct ts; [done|]. unfold len in Hlen. cbn [List.length] in Hlen. lia.
  - unfold rand_Intn, call. destruct (Z.leb_spec (len ts) 0) as [|_]; [lia|].
    cbn. specialize (Hrand (len ts) w1 ltac:(lia)).
    destruct (h (RandIntn (len ts)) w1) as [k w2]. cbn [fst] in Hrand.
    unfold index. destruct (Z.leb_spec 0 k) as [_|]; [|lia].
    destruct (lookup_lt_is_Some_2 ts (Z.to_nat k)) as [t Ht]; [unfold len in Hrand; lia|].
    rewrite Ht. cbn. exists t. split; [done|]. split; [|done].
    by eapply list_elem_of_lookup_2.
Qed.

(** X4.  [TargetAdd] stops at the first step that fails and returns
    that step's error as it is: a failed add is followed by no idle
    check; a failed idle check or idle write comes after the add, whose
    effect stays, since [TargetAdd] never calls the store's
    [TargetRemove]; and it does not panic. *)
Theorem TargetAdd_failure h w host target e :
  outcome (run h (TargetAdd host target) w) = Returned (Some e) ->
  let print := FmtPrintf "ns=router at=target.add host=%q target=%q\n" [host; target] in
  let w0 := (h print w).2 in
  let w1 := (h (StorageTargetAdd host target) w0).2 in
  let w2 := (h (RouterHostIdleStatus host) w1).2 in
  let idle := (h (RouterHostIdleStatus host) w1).1.1 in
  ((h (StorageTargetAdd host target) w0).1 = Some e
   /\ calls (run h (TargetAdd host target) w) = [print; StorageTargetAdd host target]
   /\ final (run h (TargetAdd host target) w) = w1)
  \/ ((h (StorageTargetAdd host target) w0).1 = None
      /\ (h (RouterHostIdleStatus host) w1).1.2 = Some e
      /\ calls (run h (TargetAdd host target) w)
         = [print; StorageTargetAdd host target; RouterHostIdleStatus host]
      /\ final (run h (TargetAdd host target) w) = w2)
  \/ ((h (StorageTargetAdd host target) w0).1 = None
      /\ (h (RouterHostIdleStatus host) w1).1.2 = None
      /\ (h (StorageIdleSet host idle) w2).1 = Some e
      /\ calls (run h (TargetAdd host target) w)
         = [print; StorageTargetAdd host target; RouterHostIdleStatus host;
            StorageIdleSet host idle]
      /\ final (run h (TargetAdd host target) w) = (h (StorageIdleSet host idle) w2).2).
Proof.
  unfold TargetAdd, call. cbn.
  destruct (h (FmtPrintf _ _) w) as [[] w0]. cbn.
  destruct (h (StorageTargetAdd host target) w0) as [[e1|] w1]; cbn.
  { intros [= ->]. left. done. }
  destruct (h (RouterHostIdleStatus host) w1) as [[idle [e2|]] w2]; cbn.
  { intros [= ->]. right. left. done. }
  destruct (h (StorageIdleSet host idle) w2) as [[e3|] w3]; cbn; [|done].
  intros [= ->]. right. right. done.
Qed.

End MoreRouting.

(** ** More on the certificate callbacks *)
Section MoreCertificates.
Context {Certificate CA Manager World : Type}.
Implicit Types (h : Handler Certificate CA Manager World) (w : World).
Implicit Types (r : Router Certificate) (hello : ClientHelloInfo).

(** Running one program after another. *)
Lemma run_bind {A B : Type} h (p : Prog Certificate CA Manager A)
      (f : A -> Prog Certificate CA Manager B) w :
  run h (bind p f) w =
  match run h p w with
  | (Returned a, w1, cs1) =>
      let '(o, w2, cs2) := run h (f a) w1 in (o, w2, cs1 ++ cs2)
  | (Panicked msg, w1, cs1) => (Panicked msg, w1, cs1)
  end.
Proof.
  revert w. induction p as [a|msg|c k IH]; intros w; cbn.
  - by destruct (run h (f a) w) as [[o w2] cs2].
  - reflexivity.
  - destruct (h c w) as [x w1]. rewrite IH.
    destruct (run h (k x) w1) as [[[a|msg] w2] cs1]; [|reflexivity].
    by destruct (run h (f a) w2) as [[o w3] cs2].
Qed.

(** X6.  A failed issuance is not cached.  When the CA-mode callback
    returns an error, that error is the one [r.ca()] or
    [helpers.CertificateCA] gave, no certificate comes with it, the
    router is as before, and a further handshake for the same name
    starts again by loading the CA. *)
Theorem generateCertificateCA_failure_not_cached h r w hello res e r1 :
  outcome (run h (generateCertificateCA r hello) w) = Returned (res, Some e, r1) ->
  res = None /\ r1 = r
  /\ (((h RouterCa w).1.2 = Some e
       /\ calls (run h (generateCertificateCA r hello) w) = [RouterCa])
      \/ ((h RouterCa w).1.2 = None
          /\ (h (HelpersCertificateCA (ServerName hello) (h RouterCa w).1.1) (h RouterCa w).2).1.2
             = Some e
          /\ calls (run h (generateCertificateCA r hello) w)
             = [RouterCa; HelpersCertificateCA (ServerName hello) (h RouterCa w).1.1]))
  /\ (forall w', exists rest,
        calls (run h (generateCertificateCA r1 hello) w') = RouterCa :: rest).
Proof.
  unfold generateCertificateCA, call.
  destruct (certs r !! ServerName hello) as [[cert0|]|] eqn:Hlook; cbn; [done| |].
  all: destruct (h RouterCa w) as [[ca [e1|]] w1]; cbn.
  all: try (intros [= <- <- <-]; split; [done|]; split; [done|]; split; [by left|];
            intros w'; rewrite Hlook; cbn; destruct (h RouterCa w') as [[ca' [e'|]] w1'];
            cbn; [eauto|];
            destruct (h (HelpersCertificateCA _ ca') w1') as [[[c'|] [e''|]] w2']; cbn; eauto).
  all: destruct (h (HelpersCertificateCA _ ca) w1) as [[[c|] [e2|]] w2]; cbn; try done.
  all: intros [= <- <- <-]; split; [done|]; split; [done|]; split; [by right|].
  all: intros w'; rewrite Hlook; cbn; destruct (h RouterCa w') as [[ca' [e'|]] w1'];
    cbn; [eauto|].
  all: destruct (h (HelpersCertificateCA _ ca') w1') as [[[c'|] [e''|]] w2']; cbn; eauto.
Qed.

(** X7.  One call of the CA-mode callback touches at most the cache
    entry of its own ServerName: every other entry, and the router's
    addresses, are as before. *)
Theorem generateCertificateCA_frame h r w hello res r1 w1 cs :
  run h (generateCertificateCA r hello) w = (Returned (res, r1), w1, cs) ->
  (forall host, host <> ServerName hello -> certs r1 !! host = certs r !! host)
  /\ ip r1 = ip r /\ prefix r1 = prefix r /\ service r1 = service r.
Proof.
  intros Hrun.
  destruct (generateCertificateCA_router _ _ _ _ _ _ _ _ Hrun) as [->|[[c ->] _]]; [done|].
  split; [|done]. intros host Hne. cbn. by rewrite lookup_insert_ne.
Qed.

(** X8.  Over any number of CA-mode handshakes the cache only grows
    (every name that had an entry still has one) and the router's
    addresses do not change, so [ExternalIP] answers as before. *)
Theorem handshakes_grow h r w r' w' :
  handshakes h (r, w) (r', w') ->
  dom (certs r) ⊆ dom (certs r')
  /\ ip r' = ip r /\ prefix r' = prefix r /\ service r' = service r
  /\ (forall remote, ExternalIP r' remote = ExternalIP r remote).
Proof.
  intros Hsteps.
  assert (Hinv : dom (certs r) ⊆ dom (certs r')
                 /\ ip r' = ip r /\ prefix r' = prefix r /\ service r' = service r).
  { remember (r, w) as x eqn:Ex. remember (r', w') as y eqn:Ey.
    revert r w Ex. induction Hsteps as [r0 w0|r0 w0 hello res r1 w1 cs x Hrun _ IH
                                       |r0 w0 hello msg w1 cs x _ _ IH|r0 w0 w1 x _ IH];
      intros r w Ex; simplify_eq.
    - done.
    - destruct (IH eq_refl r1 w1 eq_refl) as (Hdom & Hip & Hprefix & Hservice).
      destruct (generateCertificateCA_router _ _ _ _ _ _ _ _ Hrun) as [->|[[c ->] _]];
        [done|].
      cbn in *. split; [|done]. etrans; [|exact Hdom]. rewrite dom_insert_L. apply union_subseteq_r.
    - by apply (IH eq_refl r w1).
    - by apply (IH eq_refl r w1). }
  destruct Hinv as (Hdom & Hip & Hprefix & Hservice).
  repeat (split; [done|]). intros remote. unfold ExternalIP.
  by rewrite Hip, Hprefix, Hservice.
Qed.

End MoreCertificates.

(** ** More on redirectHTTPS *)

(** The redirect target of any request, spelled out: the scheme, the
    escaped host after [//] (left out only when host and path are both
    empty), the escaped path, rooted when there is a host, and the
    query after [?] when there is one. *)
Lemma String_redirect_target_any r :
  url.String_ (redirect_target r)
  = "https:" +:+
    (if String.eqb (http.Host r) "" && String.eqb (url.Path (http.URL r)) "" then ""
     else "//") +:+
    url.escape (http.Host r) url.encodeHost +:+
    (if negb (String.eqb (url.Path (http.URL r)) "")
        && negb (strings.HasPrefix (url.Path (http.URL r)) "/")
        && negb (String.eqb (http.Host r) "")
     then "/" else "") +:+
    (if String.eqb (url.Path (http.URL r)) "*" then "*"
     else url.escape (url.Path (http.URL r)) url.encodePath) +:+
    (if String.eqb (url.RawQuery (http.URL r)) "" then ""
     else "?" +:+ url.RawQuery (http.URL r)).
Proof.
  unfold url.String_, url.EscapedPath, redirect_target.
  cbn [url.Scheme url.Opaque url.User url.Host url.Path url.RawPath url.ForceQuery
       url.RawQuery url.Fragment].
  change ("https" =? "")%string with false. change ("" =? "")%string with true.
  cbn [negb orb andb].
  assert (Hhost : (if (http.Host r =? "")%string then ""
                   else url.escape (http.Host r) url.encodeHost)
                  = url.escape (http.Host r) url.encodeHost).
  { by destruct (String.eqb_spec (http.Host r) "") as [->|_]. }
  rewrite Hhost. clear Hhost.
  destruct (url.Path (http.URL r)) as [|c p] eqn:Hpath.
  - change ("" =? "*")%string with false. change (url.escape "" url.encodePath) with "".
    change (negb ("" =? "")%string) with false. cbn [negb orb andb].
    destruct (http.Host r =? "")%string; destruct (url.RawQuery (http.URL r) =? "")%string;
      cbn [negb orb andb]; rewrite ?append_assoc, ?append_empty_r; reflexivity.
  - change (String c p =? "")%string with false. cbn [negb orb andb].
    rewrite orb_true_r. rewrite andb_false_r.
    unfold strings.HasPrefix. cbn [String.prefix].
    destruct (String.eqb_spec (String c p) "*") as [Hstar|Hstar].
    + injection Hstar as -> ->.
      destruct (ascii_dec "/" "*") as [Heq|_]; [discriminate Heq|].
      change ("*" =? "/")%char with false. cbn [negb orb andb].
      destruct (http.Host r =? "")%string; destruct (url.RawQuery (http.URL r) =? "")%string;
        cbn [negb orb andb]; rewrite ?append_assoc, ?append_empty_r; reflexivity.
    + cbn [url.escape]. destruct (ascii_dec "/" c) as [<-|Hc].
      * change (url.shouldEscape "/" url.encodePath) with false.
        change ("/" =? "/")%char with true.
        assert (Hp : String.prefix "" p = true) by (by destruct p). rewrite Hp.
        cbn [negb orb andb].
        destruct (http.Host r =? "")%string; destruct (url.RawQuery (http.URL r) =? "")%string;
          cbn [negb orb andb]; rewrite ?append_assoc, ?append_empty_r; reflexivity.
      * destruct (Ascii.eqb_spec c "/") as [->|_]; [done|].
        destruct (url.shouldEscape c url.encodePath).
        -- change (url.percent true c +:+ url.escape p url.encodePath)
             with (String "%" (String (url.hexdigit true (url.byte c / 16))
                     (String (url.hexdigit true (url.byte c mod 16))
                        (url.escape p url.encodePath)))).
           change ("%" =? "/")%char with false. cbn [negb orb andb].
           destruct (http.Host r =? "")%string;
             destruct (url.RawQuery (http.URL r) =? "")%string;
             cbn [negb orb andb]; rewrite ?append_assoc, ?append_empty_r; reflexivity.
        -- destruct (Ascii.eqb_spec c "/") as [->|_]; [done|]. cbn [negb orb andb].
           destruct (http.Host r =? "")%string;
             destruct (url.RawQuery (http.URL r) =? "")%string;
             cbn [negb orb andb]; rewrite ?append_assoc, ?append_empty_r; reflexivity.
Qed.

(** X10.  A request that is not marked as https never reaches the HTTPS
    handler: the answer is the same whatever that handler is.  It
    always carries a Location that starts with [https:]; it leaves every
    header already on the writer except Location and Content-Type as it
    is; and when a Content-Type is already set it keeps it and writes no
    body. *)
Theorem redirectHTTPS_answers_itself resolve note fn w r :
  http.Header_Get (http.Header r) "X-Forwarded-Proto" <> "https" ->
  (forall fn', redirectHTTPS resolve note fn w r = redirectHTTPS resolve note fn' w r)
  /\ (exists rest,
        http.header (redirectHTTPS resolve note fn w r) !! "Location"
        = Some ["https:" +:+ rest])
  /\ (forall key, key <> "Location" -> key <> "Content-Type" ->
        http.header (redirectHTTPS resolve note fn w r) !! key = http.header w !! key)
  /\ (is_Some (http.header w !! "Content-Type") ->
      http.header (redirectHTTPS resolve note fn w r) !! "Content-Type"
      = http.header w !! "Content-Type"
      /\ http.body (redirectHTTPS resolve note fn w r) = http.body w).
Proof.
  intros Hproto. unfold redirectHTTPS.
  destruct (String.eqb_spec (http.Header_Get (http.Header r) "X-Forwarded-Proto") "https")
    as [|_]; [done|].
  split; [done|]. split; [|split].
  - destruct (redirect_target_https r) as [rest ->].
    destruct (Redirect_https resolve note w r http.StatusMovedPermanently rest) as [_ ->].
    exists (http.hexEscapeNonASCII rest). reflexivity.
  - intros key Hloc Hct. unfold http.Redirect, http.Header_Set. cbn [http.header].
    destruct (_ && _); rewrite !lookup_insert_ne by done; reflexivity.
  - intros Hset. unfold http.Redirect, http.Header_Set. cbn [http.header http.body].
    rewrite (bool_decide_eq_true_2 _ Hset). cbn [negb andb].
    split; [|reflexivity]. by rewrite lookup_insert_ne.
Qed.


(** ** parseTarget on the targets the rack registers *)

Lemma length_append (a b : string) :
  String.length (a +:+ b) = (String.length a + String.length b)%nat.
Proof.
  induction a as [|c a IH]; [reflexivity|].
  change (S (String.length (a +:+ b)) = S (String.length a + String.length b)).
  by rewrite IH.
Qed.

Lemma upto_append (a b : string) : strings.upto (a +:+ b) (String.length a) = a.
Proof.
  induction a as [|c a IH]; [by destruct b|].
  change (String c (strings.upto (a +:+ b) (String.length a)) = String c a). by rewrite IH.
Qed.

Lemma from_append (a b : string) : strings.from (a +:+ b) (String.length a) = b.
Proof. induction a as [|c a IH]; [by destruct b|]. exact IH. Qed.

Lemma contains_append (a b : string) c :
  strings.contains (a +:+ b) c = strings.contains a c || strings.contains b c.
Proof.
  induction a as [|x a IH]; [reflexivity|].
  change (Ascii.eqb x c || strings.contains (a +:+ b) c
          = Ascii.eqb x c || strings.contains a c || strings.contains b c).
  rewrite IH. by destruct (Ascii.eqb x c).
Qed.

(** A byte that the bytes of [s] all differ from does not occur in [s]. *)
Lemma contains_all p (s : string) c :
  strings.all p s = true -> p c = false -> strings.contains s c = false.
Proof.
  intros Hall Hc. induction s as [|x s IH]; [reflexivity|].
  cbn [strings.all strings.contains] in *. apply andb_prop in Hall as [Hx Hs].
  rewrite (IH Hs), orb_false_r. destruct (Ascii.eqb_spec x c) as [->|]; [congruence|done].
Qed.

Lemma Index_absent (s : string) c :
  strings.contains s c = false -> strings.Index s (String c "") = None.
Proof.
  induction s as [|x s IH]; [reflexivity|]. cbn [strings.contains strings.Index String.prefix].
  intros [Hx Hs]%orb_false_elim. destruct (ascii_dec c x) as [->|_].
  - by rewrite Ascii.eqb_refl in Hx.
  - by rewrite (IH Hs).
Qed.

Lemma Index_first (a b : string) c :
  strings.contains a c = false ->
  strings.Index (a +:+ String c b) (String c "") = Some (String.length a).
Proof.
  induction a as [|x a IH].
  - intros _. change (strings.Index (String c b) (String c "") = Some 0%nat).
    cbn [strings.Index String.prefix]. destruct (ascii_dec c c); [|done]. by destruct b.
  - cbn [strings.contains]. intros [Hx Ha]%orb_false_elim.
    change (strings.Index (String x (a +:+ String c b)) (String c "")
            = Some (S (String.length a))).
    cbn [strings.Index String.prefix]. destruct (ascii_dec c x) as [->|_].
    + by rewrite Ascii.eqb_refl in Hx.
    + by rewrite (IH Ha).
Qed.

Lemma LastIndex_absent (s : string) c :
  strings.contains s c = false -> strings.LastIndex s (String c "") = None.
Proof.
  induction s as [|x s IH]; [reflexivity|]. cbn [strings.contains strings.LastIndex String.prefix].
  intros [Hx Hs]%orb_false_elim. rewrite (IH Hs). destruct (ascii_dec c x) as [->|_]; [|done].
  by rewrite Ascii.eqb_refl in Hx.
Qed.

Lemma LastIndex_last (a b : string) c :
  strings.contains b c = false ->
  strings.LastIndex (a +:+ String c b) (String c "") = Some (String.length a).
Proof.
  intros Hb. induction a as [|x a IH].
  - change (strings.LastIndex (String c b) (String c "") = Some 0%nat).
    cbn [strings.LastIndex String.prefix]. rewrite (LastIndex_absent _ _ Hb).
    destruct (ascii_dec c c); [|done]. by destruct b.
  - change (strings.LastIndex (String x (a +:+ String c b)) (String c "")
            = Some (S (String.length a))).
    cbn [strings.LastIndex]. by rewrite IH.
Qed.

Lemma Count_absent (s : string) c : strings.contains s c = false -> strings.Count s c = 0%nat.
Proof.
  induction s as [|x s IH]; [reflexivity|]. cbn [strings.contains strings.Count].
  intros [-> Hs]%orb_false_elim. by rewrite (IH Hs).
Qed.

(** Facts about single bytes, by going through the bytes. *)
Ltac by_bytes c :=
  destruct c as [[] [] [] [] [] [] [] []]; vm_compute; congruence.

Lemma authchar_unescaped c :
  authchar c = true ->
  Ascii.eqb c "%" = false /\ Ascii.eqb c "+" = false
  /\ url.shouldEscape c url.encodeHost = false.
Proof. intros H. repeat split; revert H; by_bytes c. Qed.

Lemma authchar_no_control c :
  authchar c = true -> negb ((url.byte c <? 32)%nat || (url.byte c =? 127)%nat) = true.
Proof. by_bytes c. Qed.

Lemma isalpha_no_control c :
  url.isalpha c = true -> negb ((url.byte c <? 32)%nat || (url.byte c =? 127)%nat) = true.
Proof. by_bytes c. Qed.

Lemma namechar_authchar c : namechar c = true -> authchar c = true.
Proof. by_bytes c. Qed.

Lemma isdigit_authchar c : url.isdigit c = true -> authchar c = true.
Proof. by_bytes c. Qed.

Lemma all_impl (p q : ascii -> bool) (s : string) :
  (forall c, p c = true -> q c = true) -> strings.all p s = true -> strings.all q s = true.
Proof.
  intros Hpq. induction s as [|c s IH]; [done|]. cbn [strings.all].
  intros [Hc Hs]%andb_prop. by rewrite (Hpq c Hc), (IH Hs).
Qed.

(** A host made of name bytes, dots and colons is its own decoding. *)
Lemma unescape_host (s : string) :
  strings.all authchar s = true -> url.unescape s url.encodeHost = (s, None).
Proof.
  induction s as [|c s IH]; [reflexivity|]. cbn [strings.all].
  intros [Hc Hs]%andb_prop. destruct (authchar_unescaped c Hc) as (Hpct & Hplus & Hesc).
  cbn [url.unescape]. rewrite Hpct, Hplus, Hesc, andb_false_r. by rewrite (IH Hs).
Qed.

(** [getscheme] on letters followed by a colon. *)
Lemma getscheme_from_letters rawurl (s rest : string) i :
  strings.all url.isalpha s = true ->
  url.getscheme_from rawurl i (s +:+ ":" +:+ rest)
  = match (i + String.length s)%nat with
    | O => ("", "", Some "missing protocol scheme")
    | S _ => (strings.upto rawurl (i + String.length s), rest, None)
    end.
Proof.
  revert i. induction s as [|c s IH]; intros i Hs.
  - cbn [String.length]. rewrite Nat.add_0_r. by destruct i.
  - cbn [strings.all] in Hs. apply andb_prop in Hs as [Hc Hs].
    change (String c s +:+ ":" +:+ rest) with (String c (s +:+ ":" +:+ rest)).
    cbn [url.getscheme_from]. rewrite Hc, (IH (S i) Hs). cbn [String.length].
    by rewrite Nat.add_succ_r.
Qed.

Lemma getscheme_letters (scheme rest : string) :
  scheme <> "" ->
  strings.all url.isalpha scheme = true ->
  url.getscheme (scheme +:+ ":" +:+ rest) = (scheme, rest, None).
Proof.
  intros Hne Hs. unfold url.getscheme. rewrite getscheme_from_letters by done.
  destruct scheme as [|c scheme]; [done|]. cbn [String.length Nat.add].
  change (S (String.length scheme)) with (String.length (String c scheme)).
  by rewrite upto_append.
Qed.

Lemma prefix_empty (s : string) : String.prefix "" s = true.
Proof. by destruct s. Qed.

Lemma from_zero (s : string) : strings.from s 0 = s.
Proof. by destruct s. Qed.

Lemma HasPrefix_bracket (s : string) :
  strings.all authchar s = true -> strings.HasPrefix s "[" = false.
Proof.
  destruct s as [|c s]; [reflexivity|]. cbn [strings.all].
  intros [Hc _]%andb_prop. unfold strings.HasPrefix. cbn [String.prefix].
  destruct (ascii_dec "[" c) as [<-|_]; [discriminate Hc|reflexivity].
Qed.

(** The authority [host:port] has no user and is its own host. *)
Lemma parseAuthority_host_port (host port : string) :
  strings.all authchar host = true ->
  strings.all url.isdigit port = true ->
  url.parseAuthority (host +:+ ":" +:+ port) = (None, host +:+ ":" +:+ port, None).
Proof.
  intros Hhost Hport.
  assert (Hall : strings.all authchar (host +:+ ":" +:+ port) = true).
  { rewrite !all_append, Hhost. cbn. exact (all_impl _ _ _ isdigit_authchar Hport). }
  assert (Hp : url.parseHost (host +:+ ":" +:+ port) = (host +:+ ":" +:+ port, None)).
  { unfold url.parseHost. rewrite (HasPrefix_bracket _ Hall), (unescape_host _ Hall).
    change (host +:+ ":" +:+ port) with (host +:+ String ":" port).
    rewrite (LastIndex_last host port ":") by exact (contains_all _ _ ":" Hport eq_refl).
    rewrite from_append. cbn [url.validOptionalPort]. rewrite Hport. reflexivity. }
  unfold url.parseAuthority.
  rewrite (LastIndex_absent _ "@") by exact (contains_all _ _ "@" Hall eq_refl).
  by rewrite Hp.
Qed.

(** Parsing [scheme://host:port]. *)
Lemma Parse_host_port (scheme host port : string) :
  scheme <> "" ->
  strings.all url.isalpha scheme = true ->
  strings.all authchar host = true ->
  strings.all url.isdigit port = true ->
  url.Parse (scheme +:+ "://" +:+ host +:+ ":" +:+ port)
  = inl {| url.Scheme := strings.ToLower scheme; url.Opaque := ""; url.User := None;
           url.Host := host +:+ ":" +:+ port; url.Path := ""; url.RawPath := "";
           url.ForceQuery := false; url.RawQuery := ""; url.Fragment := "" |}.
Proof.
  intros Hne Hscheme Hhost Hport.
  set (H := host +:+ ":" +:+ port).
  assert (Hall : strings.all authchar H = true).
  { unfold H. rewrite !all_append, Hhost. cbn. exact (all_impl _ _ _ isdigit_authchar Hport). }
  change (scheme +:+ "://" +:+ H) with (scheme +:+ ":" +:+ "//" +:+ H).
  assert (Hclean : strings.all (fun c => negb ((url.byte c <? 32)%nat || (url.byte c =? 127)%nat))
                     (scheme +:+ ":" +:+ "//" +:+ H) = true).
  { rewrite !all_append, (all_impl _ _ _ isalpha_no_control Hscheme),
      (all_impl _ _ _ authchar_no_control Hall). reflexivity. }
  assert (Hhash : strings.contains (scheme +:+ ":" +:+ "//" +:+ H) "#" = false).
  { rewrite !contains_append, (contains_all _ _ "#" Hscheme eq_refl),
      (contains_all _ _ "#" Hall eq_refl). reflexivity. }
  unfold url.Parse, url.split. rewrite (Index_absent _ _ Hhash).
  change ("" =? "")%string with true. cbv iota beta.
  unfold url.parse, url.stringContainsCTLByte. rewrite Hclean. cbn [negb].
  destruct (String.eqb_spec (scheme +:+ ":" +:+ "//" +:+ H) "*") as [Hstar|_].
  { destruct scheme as [|c scheme]; [done|]. injection Hstar as -> _.
    cbn [strings.all] in Hscheme. discriminate Hscheme. }
  rewrite (getscheme_letters scheme ("//" +:+ H) Hne Hscheme).
  assert (Hlower : (strings.ToLower scheme =? "")%string = false).
  { destruct scheme; [done|]. reflexivity. }
  assert (Hquery : strings.contains ("//" +:+ H) "?" = false).
  { rewrite contains_append, (contains_all _ _ "?" Hall eq_refl). reflexivity. }
  unfold url.parse_rest, url.split.
  rewrite (Count_absent _ _ Hquery), andb_false_r, (Index_absent _ _ Hquery).
  change (strings.HasPrefix ("//" +:+ H) "/") with true.
  change (strings.HasPrefix ("//" +:+ H) "//") with (String.prefix "" H).
  rewrite prefix_empty, Hlower. cbn [negb orb andb].
  change (strings.from ("//" +:+ H) 2) with (strings.from H 0). rewrite from_zero.
  rewrite (Index_absent H "/") by exact (contains_all _ _ "/" Hall eq_refl).
  unfold H at 1. rewrite (parseAuthority_host_port host port Hhost Hport).
  reflexivity.
Qed.

(** X12.  [parseTarget] gives back the service and the application a
    target was built from: for every scheme made of letters, every
    service and application name made of letters, digits and hyphens
    (none of them empty) and every port made of digits, the target
    [<scheme>://<service>.<app>.svc.cluster.local:<port>] parses to
    [(service, app, true)]. *)
Theorem parseTarget_internal_target scheme service app port :
  scheme <> "" -> strings.all url.isalpha scheme = true ->
  service <> "" -> strings.all namechar service = true ->
  app <> "" -> strings.all namechar app = true ->
  strings.all url.isdigit port = true ->
  parseTarget (internal_target scheme service app port) = (service, app, true).
Proof.
  intros Hscheme Hletters Hservice Hsname Happ Haname Hport.
  set (host := service +:+ "." +:+ app +:+ ".svc.cluster.local").
  assert (Htarget : internal_target scheme service app port
                    = scheme +:+ "://" +:+ host +:+ ":" +:+ port).
  { unfold internal_target, host. rewrite !append_assoc. reflexivity. }
  assert (Hhost : strings.all authchar host = true).
  { unfold host. rewrite !all_append, (all_impl _ _ _ namechar_authchar Hsname),
      (all_impl _ _ _ namechar_authchar Haname). reflexivity. }
  assert (Hcolon : strings.contains host ":" = false).
  { unfold host. rewrite !contains_append, (contains_all _ _ ":" Hsname eq_refl),
      (contains_all _ _ ":" Haname eq_refl). reflexivity. }
  assert (Hall : strings.all authchar (host +:+ String ":" port) = true).
  { rewrite all_append, Hhost. cbn. exact (all_impl _ _ _ isdigit_authchar Hport). }
  assert (Hname : url.stripPort (host +:+ ":" +:+ port) = host).
  { unfold url.stripPort. change (host +:+ ":" +:+ port) with (host +:+ String ":" port).
    rewrite (Index_first host port ":" Hcolon).
    rewrite (Index_absent _ "]") by exact (contains_all _ _ "]" Hall eq_refl).
    apply upto_append. }
  unfold parseTarget. rewrite Htarget, (Parse_host_port scheme host port) by done.
  unfold url.Hostname. cbn [url.Host]. rewrite Hname.
  rewrite (targetParser_internal_name host service app); [reflexivity|].
  split; [reflexivity|]. split; (split; [done|]).
  - exact (contains_all _ _ "." Hsname eq_refl).
  - exact (contains_all _ _ "." Haname eq_refl).
Qed.

Lemma hostchar_authchar c : hostchar c = true -> authchar c = true.
Proof. by_bytes c. Qed.

Lemma hostchar_path c :
  hostchar c = true -> Ascii.eqb c "%" = false /\ Ascii.eqb c "+" = false.
Proof. intros H. split; revert H; by_bytes c. Qed.

Lemma unescape_hostchars (s : string) :
  strings.all hostchar s = true -> url.unescape s url.encodePath = (s, None).
Proof.
  induction s as [|c s IH]; [reflexivity|]. cbn [strings.all].
  intros [Hc Hs]%andb_prop. destruct (hostchar_path c Hc) as [Hpct Hplus].
  cbn [url.unescape url.is_host_mode andb]. by rewrite Hpct, Hplus, (IH Hs).
Qed.

(** Without a colon there is no scheme. *)
Lemma getscheme_from_no_colon rawurl (s : string) i :
  strings.contains s ":" = false ->
  url.getscheme_from rawurl i s = ("", rawurl, None).
Proof.
  revert i. induction s as [|c s IH]; intros i; [reflexivity|].
  cbn [strings.contains url.getscheme_from]. intros [Hc Hs]%orb_false_elim.
  rewrite Hc. destruct (url.isalpha c); [by apply IH|].
  destruct (url.isdigit c || _); [|reflexivity].
  destruct i; [reflexivity|by apply IH].
Qed.

(** X13.  A target that is only a dotted host name, without scheme and
    [//], is never recognised, even when the name has the internal
    form: read as a URL it is a path, and its host is empty. *)
Theorem parseTarget_bare_name name :
  strings.all hostchar name = true ->
  parseTarget name = ("", "", false).
Proof.
  intros Hname.
  assert (Hall : strings.all authchar name = true)
    by exact (all_impl _ _ _ hostchar_authchar Hname).
  assert (Habsent : forall c, hostchar c = false -> strings.contains name c = false)
    by (intros c Hc; exact (contains_all _ _ c Hname Hc)).
  unfold parseTarget, url.Parse, url.split.
  rewrite (Index_absent _ "#") by (by apply Habsent).
  change ("" =? "")%string with true. cbv iota beta.
  unfold url.parse, url.stringContainsCTLByte.
  rewrite (all_impl _ _ _ authchar_no_control Hall). cbn [negb].
  destruct (String.eqb_spec name "*") as [->|_]; [discriminate Hname|].
  unfold url.getscheme. rewrite getscheme_from_no_colon by (by apply Habsent).
  change (strings.ToLower "") with "".
  unfold url.parse_rest, url.split.
  rewrite (Count_absent _ "?"), andb_false_r, (Index_absent _ "?") by (by apply Habsent).
  assert (Hslash : strings.HasPrefix name "/" = false).
  { destruct name as [|c name']; [reflexivity|]. cbn [strings.all] in Hname.
    apply andb_prop in Hname as [Hc _]. unfold strings.HasPrefix. cbn [String.prefix].
    destruct (ascii_dec "/" c) as [<-|_]; [discriminate Hc|reflexivity]. }
  assert (Hslashes : strings.HasPrefix name "//" = false).
  { destruct name as [|c name']; [reflexivity|]. cbn [strings.all] in Hname.
    apply andb_prop in Hname as [Hc _]. unfold strings.HasPrefix. cbn [String.prefix].
    destruct (ascii_dec "/" c) as [<-|_]; [discriminate Hc|reflexivity]. }
  rewrite Hslash, Hslashes. change ("" =? "")%string with true. cbn [negb].
  rewrite (Index_absent _ ":") by (by apply Habsent).
  rewrite andb_false_r, (unescape_hostchars _ Hname). reflexivity.
Qed.

(** * The further properties on a concrete rack *)

(** X1 with [POD_IP] unset: a peer outside the cluster gets the service
    address all the same. *)
Lemma ExternalIP_short_pod_ip_witness :
  ExternalIP {| certs := (∅ : gmap string (Any Demo.Certificate)); ip := "10.0.0.1";
                prefix := ""; service := "10.1.0.7" |} "203.0.113.9:51234"
  = "10.1.0.7".
Proof.
  apply (ExternalIP_short_pod_ip
           {| certs := (∅ : gmap string (Any Demo.Certificate)); ip := "10.0.0.1";
              prefix := ""; service := "10.1.0.7" |} "" "203.0.113.9:51234").
  - reflexivity.
  - cbn. lia.
Defined.

(** X2 with [POD_IP] 10.1.4.7: a pod of the same range and a peer from
    outside. *)
Lemma ExternalIP_pod_prefix_witness :
  ExternalIP Demo.router "10.1.9.30:40022" = "10.1.0.7"
  /\ ExternalIP Demo.router "203.0.113.9:51234" = "10.0.0.1".
Proof.
  destruct (ExternalIP_pod_prefix Demo.router "10" "1" "4.7" eq_refl eq_refl eq_refl)
    as [Hin Hout].
  split; [exact (Hin "9.30:40022")|exact (Hout "203.0.113.9:51234" eq_refl)].
Defined.

(** X3 on the rack with two targets. *)
Lemma Route_total_witness :
  (outcome (run Demo.handle (Route "app.example.com") Demo.serving)
   = Returned ("", Some "no backends available")
   /\ ((Demo.handle (StorageTargetList "app.example.com") Demo.serving).1.2 <> None
       \/ (Demo.handle (StorageTargetList "app.example.com") Demo.serving).1.1 = [])
   /\ calls (run Demo.handle (Route "app.example.com") Demo.serving)
      = [StorageTargetList "app.example.com"])
  \/ (exists t,
        outcome (run Demo.handle (Route "app.example.com") Demo.serving) = Returned (t, None)
        /\ t ∈ (Demo.handle (StorageTargetList "app.example.com") Demo.serving).1.1
        /\ (Demo.handle (StorageTargetList "app.example.com") Demo.serving).1.2 = None
        /\ calls (run Demo.handle (Route "app.example.com") Demo.serving)
           = [StorageTargetList "app.example.com";
              RandIntn (len (Demo.handle (StorageTargetList "app.example.com")
                               Demo.serving).1.1)]).
Proof.
  apply (Route_total Demo.handle Demo.serving "app.example.com").
  intros n w' Hn. cbn. apply Z.mod_pos_bound. lia.
Defined.

(** X4 on the store that is down: the add fails and nothing follows. *)
Lemma TargetAdd_failure_witness :
  calls (run Demo.handle
           (TargetAdd "app.example.com" "http://web3.myapp.svc.cluster.local:3000")
           Demo.store_down)
  = [FmtPrintf "ns=router at=target.add host=%q target=%q\n"
       ["app.example.com"; "http://web3.myapp.svc.cluster.local:3000"];
     StorageTargetAdd "app.example.com" "http://web3.myapp.svc.cluster.local:3000"].
Proof.
  destruct (TargetAdd_failure Demo.handle Demo.store_down "app.example.com"
              "http://web3.myapp.svc.cluster.local:3000"
              "RequestError: send request failed" eq_refl)
    as [(_ & Hcalls & _)|[(Hadd & _)|(Hadd & _)]];
    [exact Hcalls|discriminate Hadd|discriminate Hadd].
Defined.

(** X6 on the rack whose CA cannot be loaded. *)
Lemma generateCertificateCA_failure_not_cached_witness :
  calls (run Demo.handle (generateCertificateCA Demo.router (Demo.hello "foo.example.com"))
           ca_down)
  = [RouterCa]
  /\ exists rest,
       calls (run Demo.handle (generateCertificateCA Demo.router (Demo.hello "foo.example.com"))
                Demo.empty)
       = RouterCa :: rest.
Proof.
  destruct (generateCertificateCA_failure_not_cached Demo.handle Demo.router ca_down
              (Demo.hello "foo.example.com") None
              "open ca.key: no such file or directory" Demo.router eq_refl)
    as (_ & _ & [[_ Hcalls]|(Hca & _)] & Hagain); [|discriminate Hca].
  split; [exact Hcalls|exact (Hagain Demo.empty)].
Defined.

(** X7: a handshake for [foo.example.com] on a fresh router. *)
Lemma generateCertificateCA_frame_witness :
  (forall host, host <> "foo.example.com" ->
     certs (certs_Store Demo.router "foo.example.com"
              (Demo.SignedByCA "foo.example.com" "rack-ca" 0)) !! host
     = certs Demo.router !! host)
  /\ ip (certs_Store Demo.router "foo.example.com"
           (Demo.SignedByCA "foo.example.com" "rack-ca" 0)) = "10.0.0.1".
Proof.
  destruct (generateCertificateCA_frame Demo.handle Demo.router Demo.empty
              (Demo.hello "foo.example.com") _ _ _ _ eq_refl)
    as (Hother & Hip & _).
  split; [exact Hother|exact Hip].
Defined.

(** X8: the same handshake as a sequence of one. *)
Lemma handshakes_grow_witness :
  dom (certs Demo.router)
  ⊆ dom (certs (certs_Store Demo.router "foo.example.com"
                  (Demo.SignedByCA "foo.example.com" "rack-ca" 0)))
  /\ forall remote,
       ExternalIP (certs_Store Demo.router "foo.example.com"
                     (Demo.SignedByCA "foo.example.com" "rack-ca" 0)) remote
       = ExternalIP Demo.router remote.
Proof.
  destruct (handshakes_grow Demo.handle Demo.router Demo.empty
              (certs_Store Demo.router "foo.example.com"
                 (Demo.SignedByCA "foo.example.com" "rack-ca" 0))
              (Demo.set_serial Demo.empty 1))
    as (Hdom & _ & _ & _ & Hsame).
  - eapply (handshakes_returned Demo.handle _ _ (Demo.hello "foo.example.com"));
      [reflexivity|apply handshakes_refl].
  - split; [exact Hdom|exact Hsame].
Defined.

(** X10 on the specification's example request. *)
Lemma redirectHTTPS_answers_itself_witness :
  redirectHTTPS Demo.resolve Demo.note Demo.https Demo.blank (Demo.request ∅)
  = redirectHTTPS Demo.resolve Demo.note (fun w _ => w) Demo.blank (Demo.request ∅).
Proof.
  destruct (redirectHTTPS_answers_itself Demo.resolve Demo.note Demo.https Demo.blank
              (Demo.request ∅)) as [Hsame _]; [vm_compute; discriminate|].
  exact (Hsame (fun w _ => w)).
Defined.


(** X12 on a target of the web service of myapp. *)
Lemma parseTarget_internal_target_witness :
  parseTarget "https://web.myapp.svc.cluster.local:3000" = ("web", "myapp", true).
Proof.
  apply (parseTarget_internal_target "https" "web" "myapp" "3000");
    first [discriminate|reflexivity].
Defined.

(** X13 on the bare internal name. *)
Lemma parseTarget_bare_name_witness :
  parseTarget "web.myapp.svc.cluster.local" = ("", "", false).
Proof. apply (parseTarget_bare_name "web.myapp.svc.cluster.local"). reflexivity. Defined.
